(** * Grade calculator: a shallow embedding of [grade_calculator.py]

    The script loads an exam description, validates each student record,
    scores it against the answer key, bands the percentage into a letter
    grade and renders a text report with class statistics.

    Python [float] is IEEE 754 binary64.  It is modelled with the standard
    library's [spec_float] at precision 53 and maximal exponent 1024, whose
    operations round to nearest, ties to even, exactly as CPython does on the
    usual platforms.  Python [int] is [Z]; [len] yields a [nat].

    The data read from the file are modelled twice.  The pipeline works on
    typed records, those of the input format, in which a field of a student
    may be absent.  [validate_student_data], which is handed whatever the
    file held, is also modelled on dictionaries of arbitrary JSON values,
    where it can raise. *)

From Stdlib Require Import ZArith List String Ascii Bool Lia QArith Qabs Qpower.
From Stdlib Require Import DecimalString Floats.SpecFloat.
Import ListNotations.
Close Scope Q_scope.

Set Implicit Arguments.

(** ** Python exceptions and results *)

(** [OtherError] stands for the exceptions of opening and reading a file that
    the script names nowhere ([UnicodeDecodeError], [PermissionError], ...),
    all of them subclasses of [Exception], with the text [str] gives them. *)
Inductive exn : Type :=
| ZeroDivisionError
| KeyError (key : string)
| ValueError (message : string)
| TypeError (message : string)
| OtherError (message : string)
| SystemExit (code : Z).

Inductive result (A : Type) : Type :=
| Ok (a : A)
| Raise (e : exn).

Arguments Ok {A} a.
Arguments Raise {A} e.

Definition bind {A B : Type} (r : result A) (k : A -> result B) : result B :=
  match r with
  | Ok a => k a
  | Raise e => Raise e
  end.

Notation "x <- r ;; k" := (bind r (fun x => k))
  (at level 61, r at next level, right associativity).
Notation "' pat <- r ;; k" := (bind r (fun x => match x with pat => k end))
  (at level 61, pat pattern, r at next level, right associativity).

(** ** Python floats *)

Module PyFloat.

Definition prec : Z := 53.
Definition emax : Z := 1024.

Definition float : Type := spec_float.

(** [float(z)] for an [int] that a double holds exactly (below 2^53 in
    absolute value, which every list length and every literal here is). *)
Definition of_Z (z : Z) : float := binary_normalize prec emax z 0 false.
Definition of_nat (n : nat) : float := of_Z (Z.of_nat n).

Definition add : float -> float -> float := SFadd prec emax.
Definition sub : float -> float -> float := SFsub prec emax.
Definition mul : float -> float -> float := SFmul prec emax.
Definition div : float -> float -> float := SFdiv prec emax.
Definition abs : float -> float := SFabs.

(** Comparisons; each is [False] as soon as one side is a NaN. *)
Definition ltb (x y : float) : bool := SFltb x y.
Definition leb (x y : float) : bool := SFleb x y.
Definition gtb (x y : float) : bool := SFltb y x.
Definition geb (x y : float) : bool := SFleb y x.

Definition is_nan (x : float) : bool :=
  match x with S754_nan => true | _ => false end.

Definition is_finite (x : float) : bool :=
  match x with S754_zero _ | S754_finite _ _ _ => true | _ => false end.

(** Truthiness of a float: [bool(x)] is [x != 0.0]. *)
Definition truthy (x : float) : bool :=
  match x with S754_zero _ => false | _ => true end.

(** The exact value of a finite float, as a rational. *)
Definition to_Q (x : float) : Q :=
  match x with
  | S754_finite s m e =>
      let v := (inject_Z (Z.pos m) * Qpower 2 e)%Q in
      if s then Qopp v else v
  | _ => 0%Q
  end.

(** A position in the order of the non-NaN floats: class, then exponent,
    then mantissa, all three mirrored for negative numbers. *)
Definition key (x : float) : option (Z * Z * Z) :=
  match x with
  | S754_nan => None
  | S754_zero _ => Some (0, 0, 0)%Z
  | S754_infinity false => Some (2, 0, 0)%Z
  | S754_infinity true => Some (-2, 0, 0)%Z
  | S754_finite false m e => Some (1, e, Z.pos m)%Z
  | S754_finite true m e => Some (-1, - e, Z.neg m)%Z
  end.

Definition lex3 (a b : Z * Z * Z) : comparison :=
  let '(a1, a2, a3) := a in
  let '(b1, b2, b3) := b in
  match (a1 ?= b1)%Z with
  | Eq => match (a2 ?= b2)%Z with
          | Eq => (a3 ?= b3)%Z
          | c => c
          end
  | c => c
  end.

Definition lex3_le (a b : Z * Z * Z) : Prop := lex3 a b <> Gt.

Definition le (x y : float) : Prop := leb x y = true.
Definition lt (x y : float) : Prop := ltb x y = true.

End PyFloat.

Import PyFloat.

Declare Scope pyfloat_scope.
Delimit Scope pyfloat_scope with py.
Infix "<=" := PyFloat.le : pyfloat_scope.
Infix "<" := PyFloat.lt : pyfloat_scope.
Notation "x <= y <= z" := (PyFloat.le x y /\ PyFloat.le y z) : pyfloat_scope.
Notation "x <= y < z" := (PyFloat.le x y /\ PyFloat.lt y z) : pyfloat_scope.

(** ** Formatting: [str(int)] and the [.1f] presentation of a float *)

Open Scope string_scope.

Definition str_of_Z (z : Z) : string := NilZero.string_of_int (Z.to_int z).
Definition str_of_nat (n : nat) : string := NilZero.string_of_uint (Nat.to_uint n).

(** [s * n] on strings. *)
Fixpoint str_repeat (s : string) (n : nat) : string :=
  match n with
  | O => ""
  | S k => s ++ str_repeat s k
  end.

(** Nearest integer to [num / den], ties to even ([0 <= num], [0 < den]). *)
Definition round_half_even (num den : Z) : Z :=
  let q := (num / den)%Z in
  let r := (num mod den)%Z in
  match (2 * r ?= den)%Z with
  | Lt => q
  | Gt => (q + 1)%Z
  | Eq => if Z.even q then q else (q + 1)%Z
  end.

Definition sign_str (s : bool) : string := if s then "-" else "".

(** [f"{x:.1f}"]: the exact binary value, correctly rounded to one decimal. *)
Definition format_1f (x : float) : string :=
  match x with
  | S754_nan => "nan"
  | S754_infinity s => sign_str s ++ "inf"
  | S754_zero s => sign_str s ++ "0.0"
  | S754_finite s m e =>
      let tenths :=
        if (0 <=? e)%Z then (10 * Z.pos m * 2 ^ e)%Z
        else round_half_even (10 * Z.pos m) (2 ^ (- e)) in
      sign_str s ++ str_of_Z (tenths / 10) ++ "." ++ str_of_Z (tenths mod 10)
  end.

(** ** Data model *)

(** A student record as loaded from JSON: a dictionary in which each of the
    three keys may be absent.  A key that is present carries a value of the
    type the input format gives it. *)
Record student : Type := {
  student_id : option string;
  student_name : option string;
  answers : option (list string)
}.

Record exam_info : Type := {
  exam_name : string;
  date : string;
  total_questions : Z
}.

Record exam_data : Type := {
  info : exam_info;
  answer_key : list string;
  students : list student
}.

Inductive grade : Type := gA | gB | gC | gD | gF.

Definition grade_eqb (g h : grade) : bool :=
  match g, h with
  | gA, gA | gB, gB | gC, gC | gD, gD | gF, gF => true
  | _, _ => false
  end.

Definition grade_str (g : grade) : string :=
  match g with gA => "A" | gB => "B" | gC => "C" | gD => "D" | gF => "F" end.

Record grade_data : Type := {
  gd_student_name : string;
  percentage : float;
  letter_grade : grade;
  correct_count : nat
}.

Record stats : Type := {
  class_average : float;
  highest_score : float;
  lowest_score : float;
  grade_distribution : list (grade * nat)
}.

(** ** [validate_student_data] *)

Definition required_fields : list string := ["student_id"; "student_name"; "answers"].

Definition valid_answers : list string := ["A"; "B"; "C"; "D"].

Definition is_valid_answer (answer : string) : bool :=
  existsb (String.eqb answer) valid_answers.

(** The loop over [enumerate(student['answers'])], from index [i] on. *)
Fixpoint check_answers (i : nat) (l : list string) : bool * string :=
  match l with
  | [] => (true, "")
  | answer :: rest =>
      if negb (is_valid_answer answer)
      then (false, "Invalid answer '" ++ answer ++ "' at question " ++ str_of_nat (i + 1))
      else check_answers (S i) rest
  end.

(** The loop over [required_fields] is unrolled, in the order of the list:
    the first absent field is the one reported, and past the loop the
    answers are at hand. *)
Definition validate_student_data (s : student) (total_questions : Z) : bool * string :=
  match student_id s, student_name s, answers s with
  | None, _, _ => (false, "Missing required field: " ++ "student_id")
  | Some _, None, _ => (false, "Missing required field: " ++ "student_name")
  | Some _, Some _, None => (false, "Missing required field: " ++ "answers")
  | Some _, Some _, Some ans =>
      if negb (Z.of_nat (List.length ans) =? total_questions)%Z
      then (false, "Expected " ++ str_of_Z total_questions ++ " answers, got "
                   ++ str_of_nat (List.length ans))
      else check_answers 0 ans
  end.

(** ** [validate_student_data] on any loaded record

    The function is annotated [Dict[str, Any]]: the values of a record are
    whatever JSON the file held.  Here the record is such a dictionary, and
    the function of the previous section is its restriction to the records
    whose fields have the types of the input format
    ([validate_student_dict_typed] below). *)

#[warnings="-register-all"] Inductive json : Type :=
| JNull
| JBool (b : bool)
| JInt (z : Z)
| JFloat (x : float)
| JStr (s : string)
| JList (l : list json)
| JDict (d : list (string * json)).

(** A dictionary with string keys, as the list of its items: the value of a
    key is that of its first item, and later items with the same key do not
    count. *)
Definition dict : Type := list (string * json).

(** [d.get(k)] *)
Definition dict_get (k : string) (d : dict) : option json :=
  match find (fun kv => String.eqb (fst kv) k) d with
  | Some kv => Some (snd kv)
  | None => None
  end.

(** [k in d] *)
Definition dict_has (k : string) (d : dict) : bool :=
  match dict_get k d with Some _ => true | None => false end.

(** [d[k]] *)
Definition dict_getitem (k : string) (d : dict) : result json :=
  match dict_get k d with
  | Some v => Ok v
  | None => Raise (KeyError k)
  end.

(** The keys of a dictionary, each once, in the order of the items. *)
Fixpoint dict_keys (d : dict) : list string :=
  match d with
  | [] => []
  | (k, _) :: rest => k :: filter (fun k' => negb (String.eqb k' k)) (dict_keys rest)
  end.

(** A byte that continues a character in the encoding of a [str]. *)
Definition is_continuation (c : ascii) : bool :=
  (128 <=? nat_of_ascii c)%nat && (nat_of_ascii c <? 192)%nat.

(** The characters of a [str], each with the bytes that encode it. *)
Fixpoint code_points (s : string) : list string :=
  match s with
  | EmptyString => []
  | String c rest =>
      match rest with
      | String c' _ =>
          if is_continuation c' then
            match code_points rest with
            | first :: others => String c first :: others
            | [] => [String c EmptyString]
            end
          else String c EmptyString :: code_points rest
      | EmptyString => [String c EmptyString]
      end
  end.

(** What [len] counts and [enumerate] runs over: the items of a list, the
    characters of a string, the keys of a dictionary; nothing else has a
    length. *)
Definition sequence_items (v : json) : option (list json) :=
  match v with
  | JList l => Some l
  | JStr s => Some (map JStr (code_points s))
  | JDict d => Some (map JStr (dict_keys d))
  | _ => None
  end.

Definition type_name (v : json) : string :=
  match v with
  | JNull => "NoneType"
  | JBool _ => "bool"
  | JInt _ => "int"
  | JFloat _ => "float"
  | JStr _ => "str"
  | JList _ => "list"
  | JDict _ => "dict"
  end.

(** [answer not in valid_answers]: the set hashes the value first, which a
    list or a dictionary refuses; only a string equals a member. *)
Definition not_in_valid_answers (answer : json) : result bool :=
  match answer with
  | JList _ | JDict _ => Raise (TypeError ("unhashable type: '" ++ type_name answer ++ "'"))
  | JStr s => Ok (negb (is_valid_answer s))
  | _ => Ok true
  end.

Section AnyRecord.

(** [str(v)] for a float, a list or a dictionary, as the interpreter gives
    it. *)
Variable str_of_other : json -> string.

(** [f"{v}"] *)
Definition py_format (v : json) : string :=
  match v with
  | JStr s => s
  | JNull => "None"
  | JBool true => "True"
  | JBool false => "False"
  | JInt z => str_of_Z z
  | _ => str_of_other v
  end.

(** The loop over [enumerate(student['answers'])], from index [i] on. *)
Fixpoint check_items (i : nat) (l : list json) : result (bool * string) :=
  match l with
  | [] => Ok (true, "")
  | answer :: rest =>
      outside <- not_in_valid_answers answer ;;
      if outside
      then Ok (false, "Invalid answer '" ++ py_format answer ++ "' at question "
                      ++ str_of_nat (i + 1))
      else check_items (S i) rest
  end.

Definition validate_student_dict (student : dict) (total_questions : Z)
  : result (bool * string) :=
  match find (fun field => negb (dict_has field student)) required_fields with
  | Some field => Ok (false, "Missing required field: " ++ field)
  | None =>
      answers <- dict_getitem "answers" student ;;
      match sequence_items answers with
      | None =>
          Raise (TypeError ("object of type '" ++ type_name answers ++ "' has no len()"))
      | Some items =>
          if negb (Z.of_nat (List.length items) =? total_questions)%Z
          then Ok (false, "Expected " ++ str_of_Z total_questions ++ " answers, got "
                          ++ str_of_nat (List.length items))
          else check_items 0 items
      end
  end.

End AnyRecord.

(** The dictionary of a record of the input format. *)
Definition student_dict (s : student) : dict :=
  List.app
    match student_id s with Some id => [("student_id", JStr id)] | None => [] end
    (List.app
       match student_name s with Some n => [("student_name", JStr n)] | None => [] end
       match answers s with Some l => [("answers", JList (map JStr l))] | None => [] end).

(** ** [calculate_grade] *)

(** [sum(1 for s, c in zip(student_answers, answer_key) if s == c)] *)
Definition count_matches (student_answers answer_key : list string) : nat :=
  fold_left (fun acc '(student_ans, correct_ans) =>
               if String.eqb student_ans correct_ans then acc + 1 else acc)
            (combine student_answers answer_key) 0.

(** [a / b] on two ints: true division, an error on a zero divisor.  Both
    operands are counts of list items, which a double holds exactly, so the
    quotient of the two doubles is the correctly rounded quotient. *)
Definition int_truediv (a b : Z) : result float :=
  if (b =? 0)%Z then Raise ZeroDivisionError
  else Ok (PyFloat.div (of_Z a) (of_Z b)).

(** [x / n] for a float and an int. *)
Definition float_truediv_int (x : float) (n : Z) : result float :=
  if (n =? 0)%Z then Raise ZeroDivisionError
  else Ok (PyFloat.div x (of_Z n)).

(** The [if]/[elif] chain on the percentage. *)
Definition letter_grade_of (percentage : float) : grade :=
  if geb percentage (of_Z 90) then gA
  else if geb percentage (of_Z 80) then gB
  else if geb percentage (of_Z 70) then gC
  else if geb percentage (of_Z 60) then gD
  else gF.

Definition calculate_grade (student_answers answer_key : list string)
  : result (nat * float * grade) :=
  let correct_count := count_matches student_answers answer_key in
  q <- int_truediv (Z.of_nat correct_count) (Z.of_nat (List.length answer_key)) ;;
  let percentage := PyFloat.mul q (of_Z 100) in
  Ok (correct_count, percentage, letter_grade_of percentage).

(** ** Built-in reductions over a list of floats *)

(** [max(l)] keeps the first of the greatest items, [min(l)] the first of the
    least; both refuse the empty list. *)
Definition py_max (l : list float) : result float :=
  match l with
  | [] => Raise (ValueError "max() arg is an empty sequence")
  | x :: rest => Ok (fold_left (fun m item => if gtb item m then item else m) rest x)
  end.

Definition py_min (l : list float) : result float :=
  match l with
  | [] => Raise (ValueError "min() arg is an empty sequence")
  | x :: rest => Ok (fold_left (fun m item => if ltb item m then item else m) rest x)
  end.

(** [sum(l)] starts from the int [0], which counts as [0.0] as soon as a
    float is added.  Up to CPython 3.11 it adds the items from left to
    right. *)
Definition sum_left_to_right (l : list float) : float :=
  fold_left PyFloat.add l (of_Z 0).

(** From CPython 3.12 on, the items after the first go through Neumaier's
    compensated summation: [f] is the running sum and [c] the running error,
    added back at the end when it is non-zero and finite. *)
Definition neumaier_step (fc : float * float) (x : float) : float * float :=
  let '(f, c) := fc in
  let t := PyFloat.add f x in
  let c' :=
    if geb (PyFloat.abs f) (PyFloat.abs x)
    then PyFloat.add c (PyFloat.add (PyFloat.sub f t) x)
    else PyFloat.add c (PyFloat.add (PyFloat.sub x t) f) in
  (t, c').

Definition sum_compensated (l : list float) : float :=
  match l with
  | [] => of_Z 0
  | x :: rest =>
      let '(f, c) := fold_left neumaier_step rest (PyFloat.add (of_Z 0) x, of_Z 0) in
      if truthy c && is_finite c then PyFloat.add f c else f
  end.

(** ** The interpreter's world: the files read, the files written, the console *)

(** What opening and parsing a file gives: no such file; text on which the
    parser raises its own [JSONDecodeError]; any other failure of [open] or
    of [json.load] (bytes that are not UTF-8, a file that may not be read,
    ...), with the text of the exception; or, for a file that holds data of
    the input format, those data. *)
Inductive file_content : Type :=
| NoSuchFile
| Malformed (diagnostic : string)
| Unreadable (message : string)
| Json (data : exam_data).

Record world : Type := {
  readable : string -> file_content;
  written : list (string * string);
  stdout : list string
}.

Definition io (A : Type) : Type := world -> result A * world.

Definition print (line : string) : io unit :=
  fun w => (Ok tt, {| readable := readable w; written := written w;
                      stdout := stdout w ++ [line] |}).

Definition write_file (filename text : string) : io unit :=
  fun w => (Ok tt, {| readable := readable w; written := written w ++ [(filename, text)];
                      stdout := stdout w |}).

Definition exn_message (e : exn) : string :=
  match e with
  | ZeroDivisionError => "division by zero"
  | KeyError k => "'" ++ k ++ "'"
  | ValueError msg => msg
  | TypeError msg => msg
  | OtherError msg => msg
  | SystemExit code => str_of_Z code
  end.

(** [except Exception] catches everything here but [SystemExit]. *)
Definition is_Exception (e : exn) : bool :=
  match e with SystemExit _ => false | _ => true end.

(** ** [load_exam_data] *)

(** The two [except] clauses print and exit; any other exception leaves the
    function as it is. *)
Definition load_exam_data (filename : string) : io exam_data :=
  fun w =>
    match readable w filename with
    | Json data => (Ok data, w)
    | NoSuchFile =>
        let '(_, w1) := print ("Error: Could not find data file '" ++ filename ++ "'") w in
        (Raise (SystemExit 1), w1)
    | Malformed e =>
        let '(_, w1) := print ("Error: Invalid JSON format in '" ++ filename ++ "': " ++ e) w in
        (Raise (SystemExit 1), w1)
    | Unreadable m => (Raise (OtherError m), w)
    end.

Definition newline : string := String (ascii_of_nat 10) "".

Definition warning_sign : string := "âš ï¸".

Section Interpreter.

(** The built-in [sum] of the interpreter that runs the script, on a list of
    floats: [sum_left_to_right] or [sum_compensated]. *)
Variable py_sum : list float -> float.

(** ** [generate_summary_stats] *)

Definition all_grades : list grade := [gA; gB; gC; gD; gF].

(** [l.count(g)] *)
Definition count (g : grade) (l : list grade) : nat :=
  List.length (filter (grade_eqb g) l).

(** The dictionary display evaluates its values in order: the average, and
    with it the division by the number of records, comes first. *)
Definition generate_summary_stats (grades_data : list grade_data) : result stats :=
  let percentages := map percentage grades_data in
  let letter_grades := map letter_grade grades_data in
  average <- float_truediv_int (py_sum percentages) (Z.of_nat (List.length percentages)) ;;
  highest <- py_max percentages ;;
  lowest <- py_min percentages ;;
  Ok {| class_average := average;
        highest_score := highest;
        lowest_score := lowest;
        grade_distribution := map (fun g => (g, count g letter_grades)) all_grades |}.

(** ** [process_grades] *)

(** [l[:stop]]: a negative [stop] counts from the end. *)
Definition slice_to {A : Type} (l : list A) (stop : Z) : list A :=
  if (stop <? 0)%Z then firstn (Z.to_nat (Z.of_nat (List.length l) + stop)) l
  else firstn (Z.to_nat stop) l.

(** Truthiness of the optional limit: [None] and [0] are both false. *)
Definition limit_truthy (limit_students : option Z) : bool :=
  match limit_students with
  | None => false
  | Some n => negb (n =? 0)%Z
  end.

Definition limited (students : list student) (limit_students : option Z) : list student :=
  match limit_students with
  | Some n => if limit_truthy limit_students then slice_to students n else students
  | None => students
  end.

(** [student[k]] raises when the key is absent. *)
Definition getitem {A : Type} (k : string) (field : option A) : result A :=
  match field with
  | Some v => Ok v
  | None => Raise (KeyError k)
  end.

Definition header_lines (exam : exam_info) : list string :=
  [ str_repeat "=" 60;
    "EXAM RESULTS: " ++ exam_name exam;
    "Date: " ++ date exam;
    "Total Questions: " ++ str_of_Z (total_questions exam);
    str_repeat "=" 60;
    "" ].

Definition error_line (s : student) (error_msg : string) : string :=
  warning_sign ++ "  ERROR processing "
  ++ match student_name s with Some n => n | None => "Unknown" end
  ++ ": " ++ error_msg.

(** What the loop over the students carries from one record to the next. *)
Record loop_state : Type := {
  output_lines : list string;
  grades_data : list grade_data;
  processed_count : nat
}.

(** One turn of the loop over the students. *)
Definition process_student (total_questions : Z) (answer_key : list string)
  (st : loop_state) (s : student) : result loop_state :=
  let '(is_valid, error_msg) := validate_student_data s total_questions in
  if negb is_valid then
    Ok {| output_lines := output_lines st ++ [error_line s error_msg];
          grades_data := grades_data st;
          processed_count := processed_count st |}
  else
    ans <- getitem "answers" (answers s) ;;
    '(correct_count, percentage, letter_grade) <- calculate_grade ans answer_key ;;
    name <- getitem "student_name" (student_name s) ;;
    id <- getitem "student_id" (student_id s) ;;
    Ok {| output_lines :=
            output_lines st ++
            [ "Student: " ++ name ++ " (ID: " ++ id ++ ")";
              "Score: " ++ str_of_nat correct_count ++ "/" ++ str_of_Z total_questions
                ++ " (" ++ format_1f percentage ++ "%)";
              "Grade: " ++ grade_str letter_grade;
              str_repeat "-" 40 ];
          grades_data :=
            grades_data st ++
            [ {| gd_student_name := name; percentage := percentage;
                 letter_grade := letter_grade; correct_count := correct_count |} ];
          processed_count := processed_count st + 1 |}.

Fixpoint process_students (total_questions : Z) (answer_key : list string)
  (st : loop_state) (l : list student) : result loop_state :=
  match l with
  | [] => Ok st
  | s :: rest =>
      st' <- process_student total_questions answer_key st s ;;
      process_students total_questions answer_key st' rest
  end.

Definition summary_title : string := newline ++ "CLASS SUMMARY STATISTICS".

Definition no_data_notice : string :=
  warning_sign ++ "  No valid student data was processed.".

Definition distribution_lines (d : list (grade * nat)) : list string :=
  map (fun '(g, n) => "  " ++ grade_str g ++ ": " ++ str_of_nat n ++ " student(s)")
      (filter (fun '(_, n) => (0 <? n)%nat) d).

(** The summary block, or the notice when no record was graded. *)
Definition summary_lines (st : loop_state) : result (list string) :=
  match grades_data st with
  | [] => Ok [no_data_notice]
  | _ :: _ =>
      stats <- generate_summary_stats (grades_data st) ;;
      Ok (List.app
          [ summary_title;
            str_repeat "=" 30;
            "Students Processed: " ++ str_of_nat (processed_count st);
            "Class Average: " ++ format_1f (class_average stats) ++ "%";
            "Highest Score: " ++ format_1f (highest_score stats) ++ "%";
            "Lowest Score: " ++ format_1f (lowest_score stats) ++ "%";
            "";
            "Grade Distribution:" ]
          (distribution_lines (grade_distribution stats)))
  end.

(** Everything [process_grades] does once the data is loaded. *)
Definition report_lines (data : exam_data) (limit_students : option Z)
  : result (list string) :=
  let exam := info data in
  let studs := limited (students data) limit_students in
  st <- process_students (total_questions exam) (answer_key data)
          {| output_lines := header_lines exam; grades_data := []; processed_count := 0 |}
          studs ;;
  tail <- summary_lines st ;;
  Ok (List.app (output_lines st) tail).

(** The text [process_grades] returns once the data is loaded. *)
Definition report (data : exam_data) (limit_students : option Z) : result string :=
  lines <- report_lines data limit_students ;; Ok (String.concat newline lines).

Definition process_grades (limit_students : option Z) : io string :=
  fun w =>
    match load_exam_data "exam_data.json" w with
    | (Raise e, w1) => (Raise e, w1)
    | (Ok data, w1) => (report data limit_students, w1)
    end.

(** ** [main] *)

Definition seq_io {A B : Type} (m : io A) (k : A -> io B) : io B :=
  fun w =>
    match m w with
    | (Ok a, w1) => k a w1
    | (Raise e, w1) => (Raise e, w1)
    end.

Definition main_body : io unit :=
  seq_io (process_grades (Some 3%Z)) (fun result =>
  seq_io (write_file "output.txt" result) (fun _ =>
  seq_io (print "âœ… Grade processing completed successfully!") (fun _ =>
  seq_io (print "ğŸ“„ Results saved to 'output.txt'") (fun _ =>
  seq_io (print (newline ++ "Results Preview:")) (fun _ =>
  seq_io (print (str_repeat "-" 50)) (fun _ =>
  print result)))))).

(** The exit status of the script and the world it leaves behind. *)
Definition main (w : world) : Z * world :=
  let '(_, w0) := print "Processing grades for 3 students..." w in
  match main_body w0 with
  | (Ok _, w1) => (0%Z, w1)
  | (Raise e, w1) =>
      if is_Exception e then
        let '(_, w2) := print ("âŒ An unexpected error occurred: " ++ exn_message e) w1 in
        (1%Z, w2)
      else
        match e with
        | SystemExit code => (code, w1)
        | _ => (1%Z, w1)
        end
  end.

End Interpreter.

(** * The vocabulary of the properties *)

(** ** Scoring *)

(** Position [i] holds the same answer in both lists. *)
Definition agree_at (student_answers answer_key : list string) (i : nat) : bool :=
  match nth_error student_answers i, nth_error answer_key i with
  | Some a, Some b => String.eqb a b
  | _, _ => false
  end.

(** The positions, below [n], at which the two lists agree. *)
Definition agreeing_positions (student_answers answer_key : list string) (n : nat)
  : list nat :=
  filter (agree_at student_answers answer_key) (seq 0 n).

(** The percentage of [c] right answers out of [n], as the script computes
    it, and as the exact rational it stands for. *)
Definition percentage_of (c n : nat) : float :=
  PyFloat.mul (PyFloat.div (of_nat c) (of_nat n)) (of_Z 100).

Definition exact_percentage (c n : nat) : Q := (Z.of_nat (100 * c) # Pos.of_nat n)%Q.

Definition tolerance : Q := (1 # 2 ^ 45)%Q.

(** The percentage is a finite double in canonical form, and close to the
    exact one. *)
Definition within_tolerance (c n : nat) : bool :=
  is_finite (percentage_of c n) &&
  valid_binary prec emax (percentage_of c n) &&
  Qle_bool (Qabs (to_Q (percentage_of c n) - exact_percentage c n)) tolerance.

(** ** Validation *)

(** The reason given for the answer [a] found at index [k], counted from 0. *)
Definition invalid_answer_reason (a : string) (k : nat) : string :=
  "Invalid answer '" ++ a ++ "' at question " ++ str_of_nat (k + 1).

(** [k] is the index of the first answer of [l] outside the valid set, and
    [a] is that answer. *)
Definition first_violation (l : list string) (k : nat) (a : string) : Prop :=
  nth_error l k = Some a /\ ~ In a valid_answers /\
  forall j b, j < k -> nth_error l j = Some b -> In b valid_answers.

Definition missing_field (s : student) : Prop :=
  student_id s = None \/ student_name s = None \/ answers s = None.

(** The three grounds for rejection. *)
Definition rejected (s : student) (total_questions : Z) : Prop :=
  missing_field s \/
  exists ans, answers s = Some ans /\
    (Z.of_nat (List.length ans) <> total_questions \/
     exists a, In a ans /\ ~ In a valid_answers).

(** ** Runs and reports *)

(** What [main] leaves behind when the report is produced. *)
Definition world_after_success (w : world) (result : string) : world :=
  {| readable := readable w;
     written := written w ++ [("output.txt", result)];
     stdout := stdout w ++
       [ "Processing grades for 3 students...";
         "âœ… Grade processing completed successfully!";
         "ğŸ“„ Results saved to 'output.txt'";
         newline ++ "Results Preview:";
         str_repeat "-" 50;
         result ] |}.

(** The roster replaced by [l], everything else kept. *)
Definition with_roster (data : exam_data) (l : list student) : exam_data :=
  {| info := info data; answer_key := answer_key data; students := l |}.

(** The world in which the exam file holds [data]. *)
Definition with_exam_file (w : world) (data : exam_data) : world :=
  {| readable := fun f => if String.eqb f "exam_data.json" then Json data else readable w f;
     written := written w;
     stdout := stdout w |}.

(** What can be seen of a run: exit status, files written, console. *)
Definition observable (r : Z * world) : Z * list (string * string) * list string :=
  (fst r, written (snd r), stdout (snd r)).

Definition fails_validation (total_questions : Z) (s : student) : Prop :=
  fst (validate_student_data s total_questions) = false.

(** The warning line the loop writes for a record it skips. *)
Definition warning_for (total_questions : Z) (s : student) : string :=
  error_line s (snd (validate_student_data s total_questions)).

(** The lines of the report when every record is skipped. *)
Definition lines_without_grades (data : exam_data) (limit_students : option Z)
  : list string :=
  header_lines (info data)
  ++ map (warning_for (total_questions (info data)))
         (limited (students data) limit_students)
  ++ [no_data_notice].

(** ** Exact values of canonical floats *)

Definition not_nan (x : float) : Prop := is_nan x = false.

Section ExactArithmetic.

Local Open Scope Q_scope.

(** A finite double in its canonical representation, as every arithmetic
    operation returns it. *)
Definition canonical (x : float) : Prop :=
  is_finite x = true /\ valid_binary prec emax x = true.

Definition mag (m : positive) (e : Z) : Q := inject_Z (Z.pos m) * 2 ^ e.

(** The arithmetic mean of a list of rationals. *)
Definition Qsum (l : list Q) : Q := fold_right Qplus 0 l.

Definition Qmean (l : list Q) : Q := Qsum l / inject_Z (Z.of_nat (List.length l)).

End ExactArithmetic.

(** ** Sample data *)

(** A record for a student with 8 answers right out of 9. *)
Definition scored_8_of_9 (name : string) : grade_data :=
  {| gd_student_name := name; percentage := percentage_of 8 9;
     letter_grade := gB; correct_count := 8 |}.

Definition three_equal_scores : list grade_data :=
  [scored_8_of_9 "Ann"; scored_8_of_9 "Bob"; scored_8_of_9 "Cyd"].

Definition sample_exam : exam_info :=
  {| exam_name := "Quiz 1"; date := "2024-03-01"; total_questions := 4 |}.

Definition record (id name : string) (ans : list string) : student :=
  {| student_id := Some id; student_name := Some name; answers := Some ans |}.

(** Four records, the last of which would be graded if it were reached. *)
Definition sample_data : exam_data :=
  {| info := sample_exam;
     answer_key := ["A"; "B"; "C"; "D"];
     students :=
       [ record "S1" "Ann" ["A"; "B"; "C"; "D"];
         record "S2" "Bob" ["A"; "A"; "A"];
         {| student_id := Some "S3"; student_name := None; answers := Some ["A"] |};
         record "S4" "Dan" ["A"; "B"; "C"; "A"] ] |}.

(** Three records, none of them valid. *)
Definition invalid_data : exam_data :=
  {| info := sample_exam;
     answer_key := ["A"; "B"; "C"; "D"];
     students :=
       [ record "S1" "Ann" ["A"; "B"; "C"; "E"];
         record "S2" "Bob" ["A"; "a"; "A"];
         {| student_id := None; student_name := Some "Cyd"; answers := None |} ] |}.

Definition world_with (data : exam_data) : world :=
  {| readable := fun f => if String.eqb f "exam_data.json" then Json data else NoSuchFile;
     written := [];
     stdout := [] |}.

(** * Further vocabulary: validity, ranks and the outcomes of a run *)

(** [field in student] *)
Definition has_field (s : student) (field : string) : bool :=
  if String.eqb field "student_id" then
    match student_id s with Some _ => true | None => false end
  else if String.eqb field "student_name" then
    match student_name s with Some _ => true | None => false end
  else if String.eqb field "answers" then
    match answers s with Some _ => true | None => false end
  else false.

(** The field at which the loop over [required_fields] returns, if any. *)
Definition first_missing_field (s : student) : option string :=
  find (fun field => negb (has_field s field)) required_fields.

(** The first component of the answer of [validate_student_data]. *)
Definition is_valid (total_questions : Z) (s : student) : bool :=
  fst (validate_student_data s total_questions).

(** The grades from the lowest to the highest. *)
Definition grade_rank (g : grade) : nat :=
  match g with gF => 0 | gD => 1 | gC => 2 | gB => 3 | gA => 4 end.

(** The name a graded record carries: that of the student. *)
Definition graded_name (s : student) : string :=
  match student_name s with Some n => n | None => "" end.

(** A line of the printed grade distribution. *)
Definition distribution_line (g : grade) (k : nat) : string :=
  "  " ++ grade_str g ++ ": " ++ str_of_nat k ++ " student(s)".

(** What [load_exam_data] prints when it cannot hand the data over. *)
Definition load_error_line (c : file_content) : string :=
  match c with
  | NoSuchFile => "Error: Could not find data file 'exam_data.json'"
  | Malformed e => "Error: Invalid JSON format in 'exam_data.json': " ++ e
  | Unreadable _ => ""
  | Json _ => ""
  end.

(** The world after a run of [main] that wrote no file. *)
Definition world_after_failure (w : world) (last_line : string) : world :=
  {| readable := readable w;
     written := written w;
     stdout := stdout w ++ [ "Processing grades for 3 students..."; last_line ] |}.

Definition unexpected_error_line (e : exn) : string :=
  "âŒ An unexpected error occurred: " ++ exn_message e.

(** The number of records a limit leaves of a roster of [len] records. *)
Definition limited_length (len : nat) (limit_students : option Z) : nat :=
  match limit_students with
  | None => len
  | Some n =>
      if (n =? 0)%Z then len
      else if (n <? 0)%Z then Z.to_nat (Z.of_nat len + n)
      else Nat.min (Z.to_nat n) len
  end.

(** What is checked of the percentage of [c] right answers out of [n]: it
    lies between 0.0 and 100.0, reaches 100.0 only with every answer right
    and 0.0 only with none, and does not fall with one more right answer. *)
Definition percentage_checks (c n : nat) : bool :=
  leb (of_Z 0) (percentage_of c n) &&
  leb (percentage_of c n) (of_Z 100) &&
  Bool.eqb (SFeqb (percentage_of c n) (of_Z 100)) (c =? n)%nat &&
  Bool.eqb (SFeqb (percentage_of c n) (of_Z 0)) (c =? 0)%nat &&
  leb (percentage_of c n) (percentage_of (S c) n).

(** An exam without questions, and a record that answers none of them. *)
Definition keyless_data : exam_data :=
  {| info := {| exam_name := "Empty"; date := "2024-03-01"; total_questions := 0 |};
     answer_key := [];
     students := [ record "S1" "Ann" [] ] |}.

(** ** Records of any shape *)

(** Neither a list nor a dictionary. *)
Definition scalar (v : json) : Prop :=
  match v with JList _ | JDict _ => False | _ => True end.

(** Not one of the strings A, B, C, D. *)
Definition outside_valid_answers (v : json) : Prop :=
  forall s, v = JStr s -> ~ In s valid_answers.

(** The three grounds for rejection, for a dictionary. *)
Definition rejected_dict (d : dict) (total_questions : Z) : Prop :=
  (exists field, In field required_fields /\ dict_get field d = None) \/
  exists v items,
    dict_get "answers" d = Some v /\ sequence_items v = Some items /\
    (Z.of_nat (List.length items) <> total_questions \/
     exists a, In a items /\ outside_valid_answers a).

(** [k] is the index of the first item of [l] outside the valid set, and
    [a] is that item. *)
Definition first_item_outside (l : list json) (k : nat) (a : json) : Prop :=
  nth_error l k = Some a /\ outside_valid_answers a /\
  forall j b, j < k -> nth_error l j = Some b -> ~ outside_valid_answers b.

(** Every required field is there. *)
Definition has_required_fields (d : dict) : Prop :=
  forall field, In field required_fields -> dict_get field d <> None.

(** The answers are a value [len] refuses: [None], a number, a boolean. *)
Definition answers_without_length (d : dict) : Prop :=
  exists v, dict_get "answers" d = Some v /\ sequence_items v = None.

(** The answers have the expected length and their first item outside the
    valid set is a list or a dictionary, which the set refuses to hash. *)
Definition first_violation_unhashable (d : dict) (total_questions : Z) : Prop :=
  exists v items k a,
    dict_get "answers" d = Some v /\ sequence_items v = Some items /\
    Z.of_nat (List.length items) = total_questions /\
    first_item_outside items k a /\ ~ scalar a.

(** The records on which the checks of length and of membership meet a
    value of a type they cannot handle. *)
Definition ill_typed_answers (d : dict) (total_questions : Z) : Prop :=
  has_required_fields d /\
  (answers_without_length d \/ first_violation_unhashable d total_questions).

(** The last line of [main] when the exam file gives no data. *)
Definition line_on_load_failure (c : file_content) : string :=
  match c with
  | Unreadable m => unexpected_error_line (OtherError m)
  | _ => load_error_line c
  end.

(** ** What a report owes to each record *)

Definition graded_id (s : student) : string :=
  match student_id s with Some id => id | None => "" end.

(** The score of a valid record against the key, if it can be computed. *)
Definition score_of (total_questions : Z) (key : list string) (s : student)
  : option (nat * float * grade) :=
  if is_valid total_questions s then
    match answers s with
    | Some ans =>
        match calculate_grade ans key with
        | Ok score => Some score
        | Raise _ => None
        end
    | None => None
    end
  else None.

(** The lines of one record: its warning when it fails validation, its four
    lines when it is scored. *)
Definition student_lines (total_questions : Z) (key : list string) (s : student)
  : list string :=
  if is_valid total_questions s then
    match score_of total_questions key s with
    | Some (c, p, g) =>
        [ "Student: " ++ graded_name s ++ " (ID: " ++ graded_id s ++ ")";
          "Score: " ++ str_of_nat c ++ "/" ++ str_of_Z total_questions
            ++ " (" ++ format_1f p ++ "%)";
          "Grade: " ++ grade_str g;
          str_repeat "-" 40 ]
    | None => []
    end
  else [warning_for total_questions s].

(** The graded record of one record, if it is scored. *)
Definition graded_record (total_questions : Z) (key : list string) (s : student)
  : list grade_data :=
  match score_of total_questions key s with
  | Some (c, p, g) =>
      [ {| gd_student_name := graded_name s; percentage := p;
           letter_grade := g; correct_count := c |} ]
  | None => []
  end.

(** The state of the loop after the records [l], from the header on. *)
Definition state_after (exam : exam_info) (key : list string) (l : list student)
  : loop_state :=
  {| output_lines :=
       List.app (header_lines exam)
                (flat_map (student_lines (total_questions exam) key) l);
     grades_data := flat_map (graded_record (total_questions exam) key) l;
     processed_count :=
       List.length (flat_map (graded_record (total_questions exam) key) l) |}.

(** * Properties *)

(** ** Order theory of float comparison *)

Section FloatOrder.

Lemma compare_key (x y : float) :
  SFcompare x y =
  match key x, key y with
  | Some a, Some b => Some (lex3 a b)
  | _, _ => None
  end.
Proof.
  destruct x as [[|]|[|]| |[|] m e], y as [[|]|[|]| |[|] m' e']; cbn; try reflexivity.
  f_equal. rewrite Z.compare_opp, (Z.compare_antisym e e').
  destruct (e ?= e')%Z; reflexivity.
Qed.

Lemma lex3_refl a : lex3 a a = Eq.
Proof. destruct a as [[a1 a2] a3]. cbn. now rewrite !Z.compare_refl. Qed.

Lemma lex3_antisym a b : lex3 b a = CompOpp (lex3 a b).
Proof.
  destruct a as [[a1 a2] a3], b as [[b1 b2] b3]. cbn.
  rewrite (Z.compare_antisym a1 b1), (Z.compare_antisym a2 b2), (Z.compare_antisym a3 b3).
  destruct (a1 ?= b1)%Z, (a2 ?= b2)%Z; reflexivity.
Qed.

Lemma lex3_le_iff a b :
  lex3_le a b <->
  let '(a1, a2, a3) := a in
  let '(b1, b2, b3) := b in
  (a1 < b1 \/ (a1 = b1 /\ (a2 < b2 \/ (a2 = b2 /\ a3 <= b3))))%Z.
Proof.
  destruct a as [[a1 a2] a3], b as [[b1 b2] b3]. unfold lex3_le, lex3.
  destruct (Z.compare_spec a1 b1), (Z.compare_spec a2 b2), (Z.compare_spec a3 b3);
    split; intros; try congruence; try lia.
Qed.

Lemma lex3_le_trans a b c : lex3_le a b -> lex3_le b c -> lex3_le a c.
Proof.
  rewrite !lex3_le_iff.
  destruct a as [[a1 a2] a3], b as [[b1 b2] b3], c as [[c1 c2] c3]. lia.
Qed.

Lemma leb_key (x y : float) :
  leb x y = true <-> exists a b, key x = Some a /\ key y = Some b /\ lex3_le a b.
Proof.
  unfold leb, SFleb. rewrite compare_key.
  destruct (key x) as [a|], (key y) as [b|]; unfold lex3_le.
  - split.
    + intros H. exists a, b. repeat split. destruct (lex3 a b); congruence.
    + intros (a' & b' & [= <-] & [= <-] & H). destruct (lex3 a b); congruence.
  - split; [discriminate | intros (? & ? & _ & [=] & _)].
  - split; [discriminate | intros (? & ? & [=] & _)].
  - split; [discriminate | intros (? & ? & [=] & _)].
Qed.

Lemma ltb_key (x y : float) :
  ltb x y = true <-> exists a b, key x = Some a /\ key y = Some b /\ lex3 a b = Lt.
Proof.
  unfold ltb, SFltb. rewrite compare_key.
  destruct (key x) as [a|], (key y) as [b|].
  - split.
    + intros H. exists a, b. repeat split. destruct (lex3 a b); congruence.
    + intros (a' & b' & [= <-] & [= <-] & H). now rewrite H.
  - split; [discriminate | intros (? & ? & _ & [=] & _)].
  - split; [discriminate | intros (? & ? & [=] & _)].
  - split; [discriminate | intros (? & ? & [=] & _)].
Qed.

Lemma key_not_nan (x : float) : is_nan x = false <-> exists a, key x = Some a.
Proof.
  destruct x as [[|]|[|]| |[|] m e]; cbn; split; intros H;
    try reflexivity; try discriminate; try (eexists; reflexivity).
  destruct H as [? [=]].
Qed.

Lemma le_not_nan_l x y : (x <= y)%py -> is_nan x = false.
Proof. intros H. apply leb_key in H as (a & b & Ha & _). apply key_not_nan. eauto. Qed.

Lemma le_not_nan_r x y : (x <= y)%py -> is_nan y = false.
Proof. intros H. apply leb_key in H as (a & b & _ & Hb & _). apply key_not_nan. eauto. Qed.

Lemma le_refl x : is_nan x = false -> (x <= x)%py.
Proof.
  intros H. apply key_not_nan in H as [a Ha]. apply leb_key.
  exists a, a. repeat split; trivial. unfold lex3_le. now rewrite lex3_refl.
Qed.

Lemma le_trans x y z : (x <= y)%py -> (y <= z)%py -> (x <= z)%py.
Proof.
  intros H1 H2. apply leb_key in H1 as (a & b & Ha & Hb & Hab).
  apply leb_key in H2 as (b' & c & Hb' & Hc & Hbc).
  rewrite Hb in Hb'. injection Hb' as <-.
  apply leb_key. exists a, c. repeat split; trivial. eapply lex3_le_trans; eauto.
Qed.

(** On non-NaN floats [not (y <= x)] is [x < y]: the order is total. *)
Lemma leb_false_ltb x y :
  is_nan x = false -> is_nan y = false -> leb y x = false -> (x < y)%py.
Proof.
  intros Hx Hy H. apply key_not_nan in Hx as [a Ha]. apply key_not_nan in Hy as [b Hb].
  apply ltb_key. exists a, b. repeat split; trivial.
  unfold leb, SFleb in H. rewrite compare_key, Ha, Hb in H.
  rewrite (lex3_antisym a b) in H. destruct (lex3 a b); cbn in H; congruence.
Qed.

Lemma ltb_leb_false x y : (x < y)%py -> leb y x = false.
Proof.
  intros H. apply ltb_key in H as (a & b & Ha & Hb & Hab).
  unfold leb, SFleb. rewrite compare_key, Ha, Hb, (lex3_antisym a b), Hab. reflexivity.
Qed.

Lemma lt_le x y : (x < y)%py -> (x <= y)%py.
Proof.
  intros H. apply ltb_key in H as (a & b & Ha & Hb & Hab).
  apply leb_key. exists a, b. repeat split; trivial. unfold lex3_le. congruence.
Qed.

Lemma ltb_false_le x y :
  is_nan x = false -> is_nan y = false -> ltb x y = false -> (y <= x)%py.
Proof.
  intros Hx Hy H. apply key_not_nan in Hx as [a Ha]. apply key_not_nan in Hy as [b Hb].
  apply leb_key. exists b, a. repeat split; trivial.
  unfold ltb, SFltb in H. rewrite compare_key, Ha, Hb in H.
  unfold lex3_le. rewrite (lex3_antisym a b). destruct (lex3 a b); cbn; congruence.
Qed.

Lemma lt_le_trans x y z : (x < y)%py -> (y <= z)%py -> (x < z)%py.
Proof.
  intros H1 H2.
  apply leb_false_ltb.
  - apply lt_le in H1. eapply le_not_nan_l; eauto.
  - eapply le_not_nan_r; eauto.
  - destruct (leb z x) eqn:E; trivial.
    assert (Hyx : (y <= x)%py) by (eapply le_trans; eauto).
    apply ltb_leb_false in H1. unfold le in Hyx. congruence.
Qed.

End FloatOrder.

(** ** Scenarios *)

Example scenario_1 :
  calculate_grade ["A"; "B"; "C"; "D"] ["A"; "B"; "C"; "D"] = Ok (4, of_Z 100, gA).
Proof. vm_compute. reflexivity. Qed.

Example scenario_2 :
  calculate_grade ["A"; "A"; "A"; "A"] ["A"; "B"; "C"; "D"] = Ok (1, of_Z 25, gF).
Proof. vm_compute. reflexivity. Qed.

Example format_1f_examples :
  map format_1f [of_Z 100; of_Z 25; PyFloat.mul (PyFloat.div (of_Z 2) (of_Z 3)) (of_Z 100);
                 PyFloat.div (of_Z 1) (of_Z 4); PyFloat.div (of_Z 3) (of_Z 4); of_Z 0]
  = ["100.0"; "25.0"; "66.7"; "0.2"; "0.8"; "0.0"].
Proof. vm_compute. reflexivity. Qed.

(** ** Letter-grade banding *)

Lemma thresholds_ordered :
  (of_Z 60 <= of_Z 70)%py /\ (of_Z 70 <= of_Z 80)%py /\ (of_Z 80 <= of_Z 90)%py.
Proof. repeat split; vm_compute; reflexivity. Qed.

Lemma geb_le (p t : float) : geb p t = true <-> (t <= p)%py.
Proof. reflexivity. Qed.

Lemma lt_geb_false (p t : float) : (p < t)%py -> geb p t = false.
Proof. apply ltb_leb_false. Qed.

Lemma geb_false_lt (p t : float) :
  is_nan p = false -> is_nan t = false -> geb p t = false -> (p < t)%py.
Proof. intros Hp Ht. now apply leb_false_ltb. Qed.

(** A failed [>=] test against a lower threshold rules out the higher ones. *)
Lemma geb_false_up (p lo hi : float) :
  (lo <= hi)%py -> geb p lo = false -> geb p hi = false.
Proof.
  intros Hlh Hlo.
  destruct (geb p hi) eqn:E; trivial.
  apply geb_le in E.
  assert (H : (lo <= p)%py) by (eapply le_trans; eauto).
  apply geb_le in H. congruence.
Qed.

(** What each branch of the chain means for the percentage. *)
Lemma letter_grade_of_cases (p : float) :
  is_nan p = false ->
  match letter_grade_of p with
  | gA => (of_Z 90 <= p)%py
  | gB => (of_Z 80 <= p < of_Z 90)%py
  | gC => (of_Z 70 <= p < of_Z 80)%py
  | gD => (of_Z 60 <= p < of_Z 70)%py
  | gF => (p < of_Z 60)%py
  end.
Proof.
  intros Hp. unfold letter_grade_of.
  destruct (geb p (of_Z 90)) eqn:E90; [exact E90|].
  destruct (geb p (of_Z 80)) eqn:E80; [split; [exact E80 | now apply geb_false_lt]|].
  destruct (geb p (of_Z 70)) eqn:E70; [split; [exact E70 | now apply geb_false_lt]|].
  destruct (geb p (of_Z 60)) eqn:E60; [split; [exact E60 | now apply geb_false_lt]|].
  now apply geb_false_lt.
Qed.

(** Conversely each band forces its branch: the bands do not overlap. *)
Lemma band_determines_grade (p : float) (g : grade) :
  match g with
  | gA => (of_Z 90 <= p)%py
  | gB => (of_Z 80 <= p < of_Z 90)%py
  | gC => (of_Z 70 <= p < of_Z 80)%py
  | gD => (of_Z 60 <= p < of_Z 70)%py
  | gF => (p < of_Z 60)%py
  end -> letter_grade_of p = g.
Proof.
  destruct thresholds_ordered as (H67 & H78 & H89).
  unfold letter_grade_of.
  destruct g; intros H.
  - apply geb_le in H. now rewrite H.
  - destruct H as [H1 H2]. apply lt_geb_false in H2. apply geb_le in H1.
    now rewrite H2, H1.
  - destruct H as [H1 H2]. apply lt_geb_false in H2. apply geb_le in H1.
    now rewrite (geb_false_up p H89 H2), H2, H1.
  - destruct H as [H1 H2]. apply lt_geb_false in H2. apply geb_le in H1.
    pose proof (geb_false_up p H78 H2) as H80.
    now rewrite (geb_false_up p H89 H80), H80, H2, H1.
  - apply lt_geb_false in H.
    pose proof (geb_false_up p H67 H) as H70.
    pose proof (geb_false_up p H78 H70) as H80.
    now rewrite (geb_false_up p H89 H80), H80, H70, H.
Qed.

Lemma calculate_grade_letter sa key c p g :
  calculate_grade sa key = Ok (c, p, g) -> g = letter_grade_of p.
Proof.
  unfold calculate_grade, int_truediv.
  destruct (Z.of_nat (List.length key) =? 0)%Z; cbn; [discriminate|].
  now intros [= _ <- <-].
Qed.

(** C1: every percentage from 0 to 100 gets the one grade of its band: A
    from 90 up, B from 80 to below 90, C from 70 to below 80, D from 60 to
    below 70, F below 60; in particular 90.0 itself is an A, and the grade
    [calculate_grade] returns is the band of the percentage it returns. *)
Theorem letter_grade_banding (p : float) :
  (of_Z 0 <= p)%py -> (p <= of_Z 100)%py ->
  (letter_grade_of p = gA <-> (of_Z 90 <= p)%py) /\
  (letter_grade_of p = gB <-> (of_Z 80 <= p < of_Z 90)%py) /\
  (letter_grade_of p = gC <-> (of_Z 70 <= p < of_Z 80)%py) /\
  (letter_grade_of p = gD <-> (of_Z 60 <= p < of_Z 70)%py) /\
  (letter_grade_of p = gF <-> (p < of_Z 60)%py) /\
  letter_grade_of (of_Z 90) = gA /\
  (forall sa key c g, calculate_grade sa key = Ok (c, p, g) -> g = letter_grade_of p).
Proof.
  intros H0 _.
  assert (Hp : is_nan p = false) by (eapply le_not_nan_r; eauto).
  pose proof (letter_grade_of_cases p Hp) as Hc.
  split; [|split; [|split; [|split; [|split; [|split]]]]].
  - split; [intros E; now rewrite E in Hc | apply (band_determines_grade p gA)].
  - split; [intros E; now rewrite E in Hc | apply (band_determines_grade p gB)].
  - split; [intros E; now rewrite E in Hc | apply (band_determines_grade p gC)].
  - split; [intros E; now rewrite E in Hc | apply (band_determines_grade p gD)].
  - split; [intros E; now rewrite E in Hc | apply (band_determines_grade p gF)].
  - vm_compute. reflexivity.
  - intros sa key c g. apply calculate_grade_letter.
Qed.

Lemma letter_grade_banding_witness :
  (of_Z 0 <= of_Z 85)%py /\ (of_Z 85 <= of_Z 100)%py /\
  (letter_grade_of (of_Z 85) = gB <-> (of_Z 80 <= of_Z 85 < of_Z 90)%py).
Proof.
  split; [vm_compute; reflexivity|]. split; [vm_compute; reflexivity|].
  apply (@letter_grade_banding (of_Z 85)); vm_compute; reflexivity.
Defined.

(** ** Scoring *)

Lemma count_matches_acc (l : list (string * string)) (acc : nat) :
  fold_left (fun acc '(student_ans, correct_ans) =>
               if String.eqb student_ans correct_ans then acc + 1 else acc) l acc
  = acc + fold_left (fun acc '(student_ans, correct_ans) =>
               if String.eqb student_ans correct_ans then acc + 1 else acc) l 0.
Proof.
  revert acc. induction l as [|[a b] l IH]; intros acc; cbn.
  - lia.
  - rewrite IH. rewrite (IH (if String.eqb a b then 1 else 0)).
    destruct (String.eqb a b); lia.
Qed.

Lemma count_matches_cons a b sa key :
  count_matches (a :: sa) (b :: key)
  = (if String.eqb a b then 1 else 0) + count_matches sa key.
Proof.
  unfold count_matches. cbn. rewrite count_matches_acc.
  destruct (String.eqb a b); reflexivity.
Qed.

Lemma filter_map_S (f : nat -> bool) (l : list nat) :
  filter f (map S l) = map S (filter (fun i => f (S i)) l).
Proof.
  induction l as [|x l IH]; cbn; trivial.
  destruct (f (S x)); cbn; now rewrite IH.
Qed.

Lemma count_matches_positions (sa key : list string) :
  count_matches sa key
  = List.length (agreeing_positions sa key (Nat.min (List.length sa) (List.length key))).
Proof.
  revert key. induction sa as [|a sa IH]; intros [|b key]; try reflexivity.
  rewrite count_matches_cons, IH. unfold agreeing_positions.
  cbn [List.length Nat.min]. rewrite <- cons_seq, <- seq_shift.
  change (filter (agree_at (a :: sa) (b :: key)) (0 :: ?l))
    with (if String.eqb a b then 0 :: filter (agree_at (a :: sa) (b :: key)) l
          else filter (agree_at (a :: sa) (b :: key)) l).
  rewrite filter_map_S.
  destruct (String.eqb a b); cbn [List.length]; rewrite length_map; reflexivity.
Qed.

Lemma agreeing_positions_bound (sa key : list string) (n : nat) :
  List.length (agreeing_positions sa key n) <= n.
Proof.
  unfold agreeing_positions.
  pose proof (filter_length_le (agree_at sa key) (seq 0 n)) as H.
  now rewrite length_seq in H.
Qed.

Lemma calculate_grade_eq (sa key : list string) :
  key <> [] ->
  calculate_grade sa key =
  let c := count_matches sa key in
  let p := PyFloat.mul (PyFloat.div (of_nat c) (of_nat (List.length key))) (of_Z 100) in
  Ok (c, p, letter_grade_of p).
Proof.
  intros Hk. unfold calculate_grade, int_truediv.
  destruct key as [|b key]; [congruence|]. reflexivity.
Qed.

(** Up to 64 questions, every score is checked by evaluation. *)
Lemma within_tolerance_upto_64 (c n : nat) :
  0 < n <= 64 -> c <= n -> within_tolerance c n = true.
Proof.
  intros Hn Hc.
  assert (H : forallb (fun n => forallb (fun c => within_tolerance c n) (seq 0 (S n)))
                      (seq 1 64) = true) by (vm_compute; reflexivity).
  rewrite forallb_forall in H. specialize (H n). rewrite in_seq in H.
  assert (H' := H ltac:(lia)). rewrite forallb_forall in H'.
  apply H'. apply in_seq. lia.
Qed.

(** C2: for a non-empty key and answers of the same length, the count
    returned is the number of positions at which the two lists agree, and the
    percentage is that count divided by the length of the key, by true
    (floating-point) division, and then multiplied by 100; up to 64 questions
    it is a finite double within 2^-45 of the exact rational percentage. *)
Theorem calculate_grade_count_and_percentage (student_answers answer_key : list string) :
  answer_key <> [] ->
  List.length student_answers = List.length answer_key ->
  let n := List.length answer_key in
  let c := List.length (agreeing_positions student_answers answer_key n) in
  let p := PyFloat.mul (PyFloat.div (of_nat c) (of_nat n)) (of_Z 100) in
  calculate_grade student_answers answer_key = Ok (c, p, letter_grade_of p) /\
  (n <= 64 ->
   canonical p /\ (Qabs (to_Q p - exact_percentage c n) <= tolerance)%Q).
Proof.
  intros Hk Hlen n c p.
  assert (Hc : c = count_matches student_answers answer_key).
  { unfold c, n. rewrite count_matches_positions, Hlen, Nat.min_id. reflexivity. }
  split.
  - rewrite calculate_grade_eq by assumption. cbv zeta. unfold p. rewrite Hc. reflexivity.
  - intros Hn.
    assert (Hpos : 0 < n) by (unfold n; destruct answer_key; [congruence | cbn; lia]).
    assert (Hcn : c <= n) by apply agreeing_positions_bound.
    pose proof (within_tolerance_upto_64 (conj Hpos Hn) Hcn) as H.
    unfold within_tolerance in H. apply andb_true_iff in H as [H1 H3].
    apply andb_true_iff in H1 as [H1 H2].
    split; [split; [exact H1 | exact H2] | now apply Qle_bool_iff].
Qed.

Lemma calculate_grade_count_and_percentage_witness :
  calculate_grade ["A"; "C"; "C"] ["A"; "B"; "C"]
  = Ok (2, percentage_of 2 3, gD).
Proof.
  refine (proj1 (@calculate_grade_count_and_percentage ["A"; "C"; "C"] ["A"; "B"; "C"] _ _)).
  - discriminate.
  - reflexivity.
Defined.

(** C10: for a non-empty key [calculate_grade] returns normally whatever the
    length of the answers: the count runs over the positions both lists have,
    so it is at most the shorter length, and the percentage divides by the
    length of the key. *)
Theorem calculate_grade_any_lengths (student_answers answer_key : list string) :
  answer_key <> [] ->
  let m := Nat.min (List.length student_answers) (List.length answer_key) in
  let c := List.length (agreeing_positions student_answers answer_key m) in
  let p := PyFloat.mul (PyFloat.div (of_nat c) (of_nat (List.length answer_key))) (of_Z 100) in
  calculate_grade student_answers answer_key = Ok (c, p, letter_grade_of p) /\ c <= m.
Proof.
  intros Hk m c p. split.
  - rewrite calculate_grade_eq by assumption. cbv zeta.
    unfold p, c, m. rewrite <- count_matches_positions. reflexivity.
  - apply agreeing_positions_bound.
Qed.

Lemma calculate_grade_any_lengths_witness :
  calculate_grade ["A"; "B"; "C"; "D"; "A"] ["A"; "B"; "D"]
  = Ok (2, percentage_of 2 3, gD) /\ 2 <= 3.
Proof.
  refine (@calculate_grade_any_lengths ["A"; "B"; "C"; "D"; "A"] ["A"; "B"; "D"] _).
  discriminate.
Defined.

(** ** Validation *)

Lemma is_valid_answer_iff (a : string) : is_valid_answer a = true <-> In a valid_answers.
Proof.
  unfold is_valid_answer. rewrite existsb_exists. split.
  - intros (x & Hx & E). apply String.eqb_eq in E. now subst.
  - intros H. exists a. split; [assumption | apply String.eqb_refl].
Qed.

Lemma is_valid_answer_false_iff (a : string) :
  is_valid_answer a = false <-> ~ In a valid_answers.
Proof.
  rewrite <- is_valid_answer_iff. destruct (is_valid_answer a); split; congruence.
Qed.

Lemma check_answers_all_valid (l : list string) (i : nat) :
  Forall (fun a => In a valid_answers) l -> check_answers i l = (true, "").
Proof.
  intros H. revert i. induction H as [|a l Ha _ IH]; intros i; cbn [check_answers].
  - reflexivity.
  - apply is_valid_answer_iff in Ha. rewrite Ha. cbn. apply IH.
Qed.

Lemma check_answers_some_invalid (l : list string) (i : nat) :
  Exists (fun a => ~ In a valid_answers) l ->
  exists k a, first_violation l k a /\
              check_answers i l = (false, invalid_answer_reason a (i + k)).
Proof.
  revert i. induction l as [|x l IH]; intros i H.
  - inversion H.
  - cbn [check_answers]. destruct (is_valid_answer x) eqn:E; cbn [negb].
    + apply is_valid_answer_iff in E.
      destruct (IH (S i)) as (k & a & (Hk & Ha & Hfirst) & Hc).
      { inversion H; subst; [contradiction | assumption]. }
      exists (S k), a. split.
      * repeat split; trivial. intros [|j] b Hj Hb.
        -- cbn in Hb. now injection Hb as <-.
        -- cbn in Hb. apply (Hfirst j b); [lia | assumption].
      * rewrite Hc. now replace (i + S k) with (S i + k) by lia.
    + apply is_valid_answer_false_iff in E.
      exists 0, x. split.
      * repeat split; trivial. intros j b Hj. lia.
      * unfold invalid_answer_reason. now rewrite Nat.add_0_r.
Qed.

Lemma answers_valid_or_not (l : list string) :
  Forall (fun a => In a valid_answers) l \/ Exists (fun a => ~ In a valid_answers) l.
Proof.
  induction l as [|x l [IH|IH]].
  - left. constructor.
  - destruct (is_valid_answer x) eqn:E.
    + left. constructor; [now apply is_valid_answer_iff | assumption].
    + right. apply Exists_cons_hd. now apply is_valid_answer_false_iff.
  - right. now apply Exists_cons_tl.
Qed.

(** On a record of the input format the answer is [(False, reason)] exactly
    when a required field is missing, or the number of answers is not
    [total_questions], or some answer is outside A..D; in every other case it
    is [(True, "")]. *)
Lemma validate_student_data_typed_spec (s : student) (total_questions : Z) :
  ((exists reason, validate_student_data s total_questions = (false, reason))
   <-> rejected s total_questions) /\
  (~ rejected s total_questions -> validate_student_data s total_questions = (true, "")).
Proof.
  unfold validate_student_data, rejected, missing_field.
  destruct (student_id s) as [id|]; [|split; [split; eauto | intros []; auto]].
  destruct (student_name s) as [name|]; [|split; [split; eauto | intros []; auto]].
  destruct (answers s) as [ans|]; [|split; [split; eauto 6 | intros []; auto]].
  destruct (Z.eqb_spec (Z.of_nat (List.length ans)) total_questions) as [Hlen|Hlen]; cbn [negb].
  - destruct (answers_valid_or_not ans) as [Hall|Hex].
    + rewrite (check_answers_all_valid 0 Hall). split.
      * split; [intros [r [=]] |].
        intros [[[=]|[[=]|[=]]] | (ans' & [= <-] & [H | (a & Hin & Hbad)])].
        -- contradiction.
        -- rewrite Forall_forall in Hall. exfalso. auto.
      * reflexivity.
    + destruct (check_answers_some_invalid 0 Hex) as (k & a & (Hk & Ha & _) & Hc).
      rewrite Hc. split.
      * split; [|eauto]. intros _. right. exists ans. split; trivial. right.
        exists a. split; [eapply nth_error_In; eauto | assumption].
      * intros []. right. exists ans. split; trivial. right.
        exists a. split; [eapply nth_error_In; eauto | assumption].
  - split.
    + split; [|eauto]. intros _. right. exists ans. auto.
    + intros []. right. exists ans. auto.
Qed.

(** ** The report *)

Section Report.

Variable py_sum : list float -> float.

Lemma process_grades_loaded (w : world) (data : exam_data) (limit_students : option Z) :
  readable w "exam_data.json" = Json data ->
  process_grades py_sum limit_students w = (report py_sum data limit_students, w).
Proof. intros H. unfold process_grades, load_exam_data. now rewrite H. Qed.

Lemma main_loaded_ok (w : world) (data : exam_data) (result : string) :
  readable w "exam_data.json" = Json data ->
  report py_sum data (Some 3%Z) = Ok result ->
  main py_sum w = (0%Z, world_after_success w result).
Proof.
  intros Hf Hr. unfold main, main_body, seq_io. cbn [print].
  rewrite (process_grades_loaded _ (data := data)) by exact Hf.
  rewrite Hr. cbn. unfold world_after_success. cbn.
  repeat rewrite <- app_assoc. reflexivity.
Qed.

Lemma slice_to_3 {A : Type} (l : list A) : slice_to l 3 = firstn 3 l.
Proof. reflexivity. Qed.

Lemma limited_3 (l : list student) : limited l (Some 3%Z) = firstn 3 l.
Proof. reflexivity. Qed.

Lemma limited_0 (l : list student) : limited l (Some 0%Z) = l.
Proof. reflexivity. Qed.

Lemma In_firstn {A : Type} (n : nat) (l : list A) (x : A) :
  In x (firstn n l) -> In x l.
Proof.
  revert l. induction n as [|n IH]; intros [|y l]; cbn; try tauto.
  intros [H|H]; [now left | right; now apply IH].
Qed.

Lemma limited_subset (l : list student) (limit_students : option Z) (s : student) :
  In s (limited l limit_students) -> In s l.
Proof.
  unfold limited, slice_to. destruct limit_students as [n|]; trivial.
  destruct (limit_truthy (Some n)); trivial.
  destruct (n <? 0)%Z; apply In_firstn.
Qed.

Lemma main_observable (w : world) (data : exam_data) :
  readable w "exam_data.json" = Json data ->
  observable (main py_sum w) =
  match report py_sum data (Some 3%Z) with
  | Ok result => observable (0%Z, world_after_success w result)
  | Raise e =>
      if is_Exception e
      then (1%Z, written w,
            List.app (stdout w) [ "Processing grades for 3 students...";
                          "âŒ An unexpected error occurred: " ++ exn_message e ])
      else (match e with SystemExit code => code | _ => 1%Z end, written w,
            List.app (stdout w) [ "Processing grades for 3 students..." ])
  end.
Proof.
  intros Hf. destruct (report py_sum data (Some 3%Z)) as [result|e] eqn:Hr.
  - now rewrite (main_loaded_ok w Hf Hr).
  - unfold main, main_body, seq_io. cbn [print].
    rewrite (process_grades_loaded _ (data := data)) by exact Hf.
    rewrite Hr. destruct e; cbn; unfold observable; cbn;
      repeat rewrite <- app_assoc; reflexivity.
Qed.

Lemma report_first_three (data : exam_data) :
  report py_sum data (Some 3%Z) = report py_sum (with_roster data (firstn 3 (students data))) None.
Proof. reflexivity. Qed.

Lemma report_of_first_three (data : exam_data) :
  report py_sum (with_roster data (firstn 3 (students data))) (Some 3%Z) = report py_sum data (Some 3%Z).
Proof.
  unfold report, report_lines. cbn [students with_roster info answer_key].
  rewrite !limited_3, firstn_firstn. reflexivity.
Qed.

(** C9: a limit of 0 is falsy, so the roster is not cut and the run is the
    one with no limit at all. *)
Theorem zero_limit_processes_everyone (w : world) (l : list student) :
  limited l (Some 0%Z) = l /\
  limited l (Some 0%Z) = limited l None /\
  process_grades py_sum (Some 0%Z) w = process_grades py_sum None w.
Proof. repeat split. Qed.

(** C6: on the empty list the average divides by zero, and the function
    raises instead of returning statistics. *)
Theorem generate_summary_stats_empty :
  generate_summary_stats py_sum [] = Raise ZeroDivisionError /\
  forall st, generate_summary_stats py_sum [] <> Ok st.
Proof. split; [reflexivity | discriminate]. Qed.

End Report.

(** ** A roster with no valid record *)

Section NoValidRecord.

Variable py_sum : list float -> float.

Lemma process_students_all_invalid (tq : Z) (key : list string) (l : list student) :
  Forall (fails_validation tq) l ->
  forall st,
    process_students tq key st l =
    Ok {| output_lines := output_lines st ++ map (warning_for tq) l;
          grades_data := grades_data st;
          processed_count := processed_count st |}.
Proof.
  induction 1 as [|s l Hs _ IH]; intros st; cbn [process_students map].
  - rewrite app_nil_r. now destruct st.
  - unfold process_student, warning_for, fails_validation in *.
    destruct (validate_student_data s tq) as [b msg]. cbn in Hs. subst b.
    cbn [negb bind]. rewrite IH. cbn [output_lines grades_data processed_count snd].
    rewrite <- app_assoc. reflexivity.
Qed.

Lemma Forall_limited (P : student -> Prop) (l : list student) (limit_students : option Z) :
  Forall P l -> Forall P (limited l limit_students).
Proof.
  rewrite !Forall_forall. intros H s Hs. apply H. eapply limited_subset; eauto.
Qed.

Lemma report_lines_all_invalid (data : exam_data) (limit_students : option Z) :
  Forall (fails_validation (total_questions (info data))) (students data) ->
  report_lines py_sum data limit_students = Ok (lines_without_grades data limit_students).
Proof.
  intros H. unfold report_lines.
  rewrite process_students_all_invalid by now apply Forall_limited.
  cbn [bind]. unfold summary_lines. cbn [grades_data output_lines bind].
  unfold lines_without_grades. rewrite <- app_assoc. reflexivity.
Qed.

Lemma summary_title_not_warning (tq : Z) (l : list student) :
  ~ In summary_title (map (warning_for tq) l).
Proof.
  rewrite in_map_iff. intros (s & H & _). discriminate H.
Qed.

Lemma summary_title_not_in_header (exam : exam_info) : ~ In summary_title (header_lines exam).
Proof.
  intros H. repeat destruct H as [H|H]; try discriminate H. exact H.
Qed.

(** C7: when no record of the roster passes validation, the report is the
    header, one warning per record looked at and the notice that no valid
    data was processed; it has no summary block, and the run ends normally,
    with that report written out and exit status 0. *)
Theorem report_without_valid_record (w : world) (data : exam_data)
  (limit_students : option Z) :
  readable w "exam_data.json" = Json data ->
  Forall (fails_validation (total_questions (info data))) (students data) ->
  process_grades py_sum limit_students w
  = (Ok (String.concat newline (lines_without_grades data limit_students)), w) /\
  In no_data_notice (lines_without_grades data limit_students) /\
  ~ In summary_title (lines_without_grades data limit_students) /\
  main py_sum w
  = (0%Z, world_after_success w
            (String.concat newline (lines_without_grades data (Some 3%Z)))).
Proof.
  intros Hf Hall. split; [|split; [|split]].
  - rewrite (process_grades_loaded py_sum _ (data := data)) by exact Hf.
    unfold report. now rewrite report_lines_all_invalid.
  - unfold lines_without_grades. rewrite !in_app_iff. right. right. now left.
  - unfold lines_without_grades. rewrite !in_app_iff. intros [H|[H|[H|[]]]].
    + now apply summary_title_not_in_header in H.
    + now apply summary_title_not_warning in H.
    + discriminate H.
  - apply (main_loaded_ok py_sum w Hf).
    unfold report. now rewrite report_lines_all_invalid.
Qed.

End NoValidRecord.

(** ** Class statistics *)

Lemma fold_max_spec (rest : list float) (x : float) :
  not_nan x -> Forall not_nan rest ->
  let r := fold_left (fun m item => if gtb item m then item else m) rest x in
  In r (x :: rest) /\ forall y, In y (x :: rest) -> (y <= r)%py.
Proof.
  intros Hx Hrest. revert x Hx.
  induction Hrest as [|y rest Hy _ IH]; intros x Hx; cbn [fold_left].
  - split; [now left|]. intros y [<-|[]]. now apply le_refl.
  - destruct (gtb y x) eqn:E.
    + destruct (IH y Hy) as [Hin Hle]. split.
      * right. exact Hin.
      * intros z [<-|Hz]; [|now apply Hle].
        apply le_trans with y; [now apply lt_le | apply Hle; now left].
    + destruct (IH x Hx) as [Hin Hle]. split.
      * destruct Hin as [Hin|Hin]; [now left | right; now right].
      * intros z [<-|[<-|Hz]].
        -- apply Hle. now left.
        -- apply le_trans with x; [now apply ltb_false_le | apply Hle; now left].
        -- apply Hle. now right.
Qed.

Lemma fold_min_spec (rest : list float) (x : float) :
  not_nan x -> Forall not_nan rest ->
  let r := fold_left (fun m item => if ltb item m then item else m) rest x in
  In r (x :: rest) /\ forall y, In y (x :: rest) -> (r <= y)%py.
Proof.
  intros Hx Hrest. revert x Hx.
  induction Hrest as [|y rest Hy _ IH]; intros x Hx; cbn [fold_left].
  - split; [now left|]. intros y [<-|[]]. now apply le_refl.
  - destruct (ltb y x) eqn:E.
    + destruct (IH y Hy) as [Hin Hle]. split.
      * right. exact Hin.
      * intros z [<-|Hz]; [|now apply Hle].
        apply le_trans with y; [apply Hle; now left | now apply lt_le].
    + destruct (IH x Hx) as [Hin Hle]. split.
      * destruct Hin as [Hin|Hin]; [now left | right; now right].
      * intros z [<-|[<-|Hz]].
        -- apply Hle. now left.
        -- apply le_trans with x; [apply Hle; now left | now apply ltb_false_le].
        -- apply Hle. now right.
Qed.

Lemma counts_partition (l : list grade) :
  list_sum (map (fun g => count g l) all_grades) = List.length l.
Proof.
  unfold all_grades, count. cbn [map list_sum].
  induction l as [|g l IH]; [reflexivity|].
  destruct g; cbn in *; lia.
Qed.

(** ** Exact values of canonical floats *)

Section ExactValues.

Local Open Scope Q_scope.

Lemma two_power_pos (e : Z) : 0 < 2 ^ e.
Proof. apply Qpower_0_lt. reflexivity. Qed.

Lemma mag_pos (m : positive) (e : Z) : 0 < mag m e.
Proof.
  unfold mag. apply Qmult_lt_0_compat; [|apply two_power_pos].
  change 0 with (inject_Z 0). rewrite <- Zlt_Qlt. lia.
Qed.

Lemma digits2_pos_bounds (m : positive) :
  (2 ^ (Z.pos (digits2_pos m) - 1) <= Z.pos m < 2 ^ Z.pos (digits2_pos m))%Z.
Proof.
  induction m as [m IH|m IH|]; cbn [digits2_pos].
  - rewrite Pos2Z.inj_succ.
    replace (Z.succ (Z.pos (digits2_pos m)) - 1)%Z
      with (Z.succ (Z.pos (digits2_pos m) - 1)) by lia.
    rewrite !Z.pow_succ_r by lia. lia.
  - rewrite Pos2Z.inj_succ.
    replace (Z.succ (Z.pos (digits2_pos m)) - 1)%Z
      with (Z.succ (Z.pos (digits2_pos m) - 1)) by lia.
    rewrite !Z.pow_succ_r by lia. lia.
  - cbn. lia.
Qed.

Lemma bounded_inv (m : positive) (e : Z) :
  bounded prec emax m e = true ->
  (Z.pos m < 2 ^ 53 /\ (-1074 < e -> 2 ^ 52 <= Z.pos m))%Z.
Proof.
  unfold bounded, canonical_mantissa, fexp, emin, prec, emax.
  intros H. apply andb_true_iff in H as [H _]. apply Z.eqb_eq in H.
  pose proof (digits2_pos_bounds m) as [Hlo Hhi].
  split.
  - apply Z.lt_le_trans with (1 := Hhi). apply Z.pow_le_mono_r; lia.
  - intros He. replace (Z.pos (digits2_pos m)) with 53%Z in Hlo by lia. exact Hlo.
Qed.

Lemma bounded_emin (m : positive) (e : Z) :
  bounded prec emax m e = true -> (-1074 <= e)%Z.
Proof.
  unfold bounded, canonical_mantissa, fexp, emin, prec, emax.
  intros H. apply andb_true_iff in H as [H _]. apply Z.eqb_eq in H. lia.
Qed.

Lemma mag_le (m1 m2 : positive) (e1 e2 : Z) :
  bounded prec emax m1 e1 = true -> bounded prec emax m2 e2 = true ->
  (e1 < e2 \/ (e1 = e2 /\ Z.pos m1 <= Z.pos m2))%Z ->
  mag m1 e1 <= mag m2 e2.
Proof.
  intros B1 B2 [Hlt|[-> Hm]]; unfold mag.
  - pose proof B1 as H1. apply bounded_inv in H1 as [H1 _].
    pose proof B2 as H2. apply bounded_inv in H2 as [_ H2].
    pose proof B1 as He1. apply bounded_emin in He1.
    specialize (H2 ltac:(lia)).
    replace e2 with ((e2 - e1) + e1)%Z by lia.
    rewrite Qpower_plus by discriminate.
    rewrite Qmult_assoc. apply Qmult_le_compat_r; [|apply Qlt_le_weak, two_power_pos].
    change 2 with (inject_Z 2). rewrite <- Zpower_Qpower by lia.
    rewrite <- inject_Z_mult. rewrite <- Zle_Qle.
    assert (2 ^ 1 <= 2 ^ (e2 - e1))%Z by (apply Z.pow_le_mono_r; lia).
    nia.
  - apply Qmult_le_compat_r; [|apply Qlt_le_weak, two_power_pos].
    now rewrite <- Zle_Qle.
Qed.

(** Float comparison is the comparison of the exact values. *)
Lemma le_to_Q (x y : float) :
  canonical x -> canonical y -> (x <= y)%py -> to_Q x <= to_Q y.
Proof.
  intros [Fx Vx] [Fy Vy] H.
  apply leb_key in H as (a & b & Ha & Hb & Hab). apply lex3_le_iff in Hab.
  destruct x as [sx|sx| |sx mx ex]; try discriminate Fx;
  destruct y as [sy|sy| |sy my ey]; try discriminate Fy;
  cbn [valid_binary] in Vx, Vy.
  - apply Qle_refl.
  - destruct sy; cbn in Hb; injection Ha as <-; injection Hb as <-.
    + lia.
    + cbn [to_Q]. apply Qlt_le_weak, mag_pos.
  - destruct sx; cbn in Ha; injection Ha as <-; injection Hb as <-.
    + cbn [to_Q]. change 0 with (- 0). apply Qopp_le_compat, Qlt_le_weak, mag_pos.
    + lia.
  - destruct sx, sy; cbn in Ha, Hb; injection Ha as <-; injection Hb as <-; cbn [to_Q].
    + apply Qopp_le_compat. apply mag_le; trivial. lia.
    + apply Qle_trans with 0.
      * change 0 with (- 0). apply Qopp_le_compat, Qlt_le_weak, mag_pos.
      * apply Qlt_le_weak, mag_pos.
    + lia.
    + apply mag_le; trivial. lia.
Qed.

Lemma Qsum_bounds (lo hi : Q) (l : list Q) :
  Forall (fun q => lo <= q <= hi) l ->
  lo * inject_Z (Z.of_nat (List.length l)) <= Qsum l /\
  Qsum l <= hi * inject_Z (Z.of_nat (List.length l)).
Proof.
  induction 1 as [|q l [Hlo Hhi] _ [IHlo IHhi]].
  - cbn. split; rewrite Qmult_0_r; apply Qle_refl.
  - cbn [List.length Qsum fold_right]. rewrite Nat2Z.inj_succ, <- Z.add_1_l.
    rewrite inject_Z_plus. fold (Qsum l). split.
    + rewrite Qmult_plus_distr_r, Qmult_1_r. now apply Qplus_le_compat.
    + rewrite Qmult_plus_distr_r, Qmult_1_r. now apply Qplus_le_compat.
Qed.

Lemma Qmean_bounds (lo hi : Q) (l : list Q) :
  l <> [] -> Forall (fun q => lo <= q <= hi) l -> lo <= Qmean l <= hi.
Proof.
  intros Hne H. destruct (Qsum_bounds H) as [Hlo Hhi].
  assert (Hn : 0 < inject_Z (Z.of_nat (List.length l))).
  { change 0 with (inject_Z 0). rewrite <- Zlt_Qlt.
    destruct l; [congruence | cbn [List.length]; lia]. }
  unfold Qmean. split.
  - now apply Qle_shift_div_l.
  - now apply Qle_shift_div_r.
Qed.

End ExactValues.

Lemma canonical_not_nan (x : float) : canonical x -> not_nan x.
Proof. intros [H _]. now destruct x. Qed.

(** C4, as amended: on a non-empty list of records whose percentages are
    finite doubles, the statistics are returned; the lowest and the highest
    score are percentages of the list with every percentage between them, so
    that the exact mean of the percentages lies between them as well; the
    class average is the float quotient of the float sum by the number of
    records; and the distribution lists the five grades with counts that add
    up to the number of records. *)
Theorem summary_stats_bounds (py_sum : list float -> float) (gs : list grade_data) :
  gs <> [] ->
  Forall (fun g => canonical (percentage g)) gs ->
  exists st,
    generate_summary_stats py_sum gs = Ok st /\
    (lowest_score st <= highest_score st)%py /\
    (forall g, In g gs -> (lowest_score st <= percentage g <= highest_score st)%py) /\
    In (lowest_score st) (map percentage gs) /\
    In (highest_score st) (map percentage gs) /\
    (to_Q (lowest_score st) <= Qmean (map (fun g => to_Q (percentage g)) gs)
     <= to_Q (highest_score st))%Q /\
    class_average st = PyFloat.div (py_sum (map percentage gs)) (of_nat (List.length gs)) /\
    map fst (grade_distribution st) = all_grades /\
    list_sum (map snd (grade_distribution st)) = List.length gs.
Proof.
  intros Hne Hcan.
  destruct gs as [|g0 gs]; [congruence|].
  assert (Hnn : Forall not_nan (map percentage (g0 :: gs))).
  { rewrite Forall_map. eapply Forall_impl; [|exact Hcan].
    intros g. apply canonical_not_nan. }
  cbn [map] in Hnn. inversion Hnn as [|x l Hx Hl]; subst.
  destruct (fold_max_spec Hx Hl) as [Hmax_in Hmax].
  destruct (fold_min_spec Hx Hl) as [Hmin_in Hmin].
  set (hi := fold_left (fun m item => if gtb item m then item else m)
                       (map percentage gs) (percentage g0)) in *.
  set (lo := fold_left (fun m item => if ltb item m then item else m)
                       (map percentage gs) (percentage g0)) in *.
  assert (Hbetween : forall g, In g (g0 :: gs) -> (lo <= percentage g <= hi)%py).
  { intros g Hg. apply (in_map percentage) in Hg. split; [now apply Hmin | now apply Hmax]. }
  assert (Hcan_of : forall x, In x (map percentage (g0 :: gs)) -> canonical x).
  { intros x Hxin. apply in_map_iff in Hxin as (g & <- & Hg).
    rewrite Forall_forall in Hcan. now apply Hcan. }
  eexists. split.
  { unfold generate_summary_stats, float_truediv_int, py_max, py_min.
    rewrite length_map. cbn [List.length map]. rewrite Nat2Z.inj_succ.
    destruct (Z.eqb_spec (Z.succ (Z.of_nat (List.length gs))) 0); [lia|].
    cbn [bind]. reflexivity. }
  cbn [lowest_score highest_score class_average grade_distribution].
  fold hi. fold lo.
  split; [|split; [|split; [|split; [|split; [|split; [|split]]]]]].
  - apply le_trans with (percentage g0); apply (Hbetween g0); now left.
  - exact Hbetween.
  - exact Hmin_in.
  - exact Hmax_in.
  - apply Qmean_bounds; [discriminate|].
    rewrite Forall_forall. intros q Hq.
    apply in_map_iff in Hq as (g & <- & Hg).
    assert (Hp : In (percentage g) (map percentage (g0 :: gs))) by now apply in_map.
    destruct (Hbetween g Hg) as [H1 H2].
    split; apply le_to_Q; auto.
  - unfold of_nat. cbn [List.length map]. now rewrite Nat2Z.inj_succ.
  - rewrite map_map. cbn [fst]. apply map_id.
  - rewrite map_map. cbn [snd]. rewrite counts_partition.
    apply (length_map letter_grade (g0 :: gs)).
Qed.

Example eight_of_nine_is_graded :
  calculate_grade ["A"; "B"; "C"; "D"; "A"; "B"; "C"; "D"; "A"]
                  ["A"; "B"; "C"; "D"; "A"; "B"; "C"; "D"; "B"]
  = Ok (8, percentage_of 8 9, gB).
Proof. vm_compute. reflexivity. Qed.

(** C4 as stated fails: three students with 8 of 9 each have an average just
    below their common score, with either way of summing. *)
Lemma average_below_lowest_score :
  (exists st,
     generate_summary_stats sum_left_to_right three_equal_scores = Ok st /\
     lowest_score st = percentage_of 8 9 /\
     (class_average st < lowest_score st)%py /\
     ~ (lowest_score st <= class_average st)%py) /\
  (exists st,
     generate_summary_stats sum_compensated three_equal_scores = Ok st /\
     lowest_score st = percentage_of 8 9 /\
     (class_average st < lowest_score st)%py /\
     ~ (lowest_score st <= class_average st)%py).
Proof.
  split; eexists; (split; [vm_compute; reflexivity|]);
    (split; [vm_compute; reflexivity|]);
    (split; [vm_compute; reflexivity | vm_compute; discriminate]).
Qed.

Lemma summary_stats_bounds_witness :
  exists st,
    generate_summary_stats sum_left_to_right three_equal_scores = Ok st /\
    (lowest_score st <= highest_score st)%py /\
    (forall g, In g three_equal_scores ->
               (lowest_score st <= percentage g <= highest_score st)%py) /\
    In (lowest_score st) (map percentage three_equal_scores) /\
    In (highest_score st) (map percentage three_equal_scores) /\
    (to_Q (lowest_score st)
     <= Qmean (map (fun g => to_Q (percentage g)) three_equal_scores)
     <= to_Q (highest_score st))%Q /\
    class_average st
    = PyFloat.div (sum_left_to_right (map percentage three_equal_scores))
                  (of_nat (List.length three_equal_scores)) /\
    map fst (grade_distribution st) = all_grades /\
    list_sum (map snd (grade_distribution st)) = List.length three_equal_scores.
Proof.
  apply (@summary_stats_bounds sum_left_to_right three_equal_scores).
  - discriminate.
  - repeat constructor.
Defined.

(** ** Sample runs *)

Lemma report_without_valid_record_witness :
  let w := world_with invalid_data in
  process_grades sum_left_to_right None w
  = (Ok (String.concat newline (lines_without_grades invalid_data None)), w) /\
  In no_data_notice (lines_without_grades invalid_data None) /\
  ~ In summary_title (lines_without_grades invalid_data None) /\
  main sum_left_to_right w
  = (0%Z, world_after_success w
            (String.concat newline (lines_without_grades invalid_data (Some 3%Z)))).
Proof.
  apply (@report_without_valid_record sum_left_to_right (world_with invalid_data)
           invalid_data None).
  - reflexivity.
  - repeat constructor.
Defined.

Example invalid_data_report :
  lines_without_grades invalid_data (Some 3%Z) =
  [ "============================================================";
    "EXAM RESULTS: Quiz 1";
    "Date: 2024-03-01";
    "Total Questions: 4";
    "============================================================";
    "";
    warning_sign ++ "  ERROR processing Ann: Invalid answer 'E' at question 4";
    warning_sign ++ "  ERROR processing Bob: Expected 4 answers, got 3";
    warning_sign ++ "  ERROR processing Cyd: Missing required field: student_id";
    warning_sign ++ "  No valid student data was processed." ].
Proof. vm_compute. reflexivity. Qed.

Example sample_report_covers_three_students :
  report sum_left_to_right sample_data (Some 3%Z) =
  Ok (String.concat newline
    [ "============================================================";
      "EXAM RESULTS: Quiz 1";
      "Date: 2024-03-01";
      "Total Questions: 4";
      "============================================================";
      "";
      "Student: Ann (ID: S1)";
      "Score: 4/4 (100.0%)";
      "Grade: A";
      "----------------------------------------";
      warning_sign ++ "  ERROR processing Bob: Expected 4 answers, got 3";
      warning_sign ++ "  ERROR processing Unknown: Missing required field: student_name";
      newline ++ "CLASS SUMMARY STATISTICS";
      "==============================";
      "Students Processed: 1";
      "Class Average: 100.0%";
      "Highest Score: 100.0%";
      "Lowest Score: 100.0%";
      "";
      "Grade Distribution:";
      "  A: 1 student(s)" ]).
Proof. vm_compute. reflexivity. Qed.

(** * Further properties of the code *)

(** ** Validation: reasons *)

Lemma check_answers_reason (l : list string) (i : nat) :
  fst (check_answers i l) = true <-> snd (check_answers i l) = "".
Proof.
  revert i. induction l as [|a l IH]; intros i; cbn [check_answers].
  - cbn. tauto.
  - destruct (is_valid_answer a); cbn [negb]; [apply IH|].
    cbn. split; discriminate.
Qed.

(** X1: the reason is the empty string exactly when the record is accepted:
    every rejection comes with a non-empty reason. *)
Theorem validate_reason_empty_iff_valid (s : student) (total_questions : Z) :
  fst (validate_student_data s total_questions) = true
  <-> snd (validate_student_data s total_questions) = "".
Proof.
  unfold validate_student_data.
  destruct (student_id s); [|cbn; split; discriminate].
  destruct (student_name s); [|cbn; split; discriminate].
  destruct (answers s) as [ans|]; [|cbn; split; discriminate].
  destruct (negb (Z.of_nat (List.length ans) =? total_questions)%Z).
  - cbn. split; discriminate.
  - apply check_answers_reason.
Qed.

(** X2: when a required field is absent, the record is rejected and the
    reason names the first absent field in the order [student_id],
    [student_name], [answers]; when none is absent, all three are there. *)
Theorem validate_reports_first_missing_field (s : student) (total_questions : Z) :
  match first_missing_field s with
  | Some field =>
      In field required_fields /\ has_field s field = false /\
      validate_student_data s total_questions
      = (false, "Missing required field: " ++ field)
  | None =>
      student_id s <> None /\ student_name s <> None /\ answers s <> None
  end.
Proof.
  unfold first_missing_field, validate_student_data, required_fields, has_field.
  cbn [find String.eqb Ascii.eqb Bool.eqb negb].
  destruct (student_id s); cbn [negb].
  - destruct (student_name s); cbn [negb].
    + destruct (answers s); cbn [negb].
      * repeat split; discriminate.
      * repeat split. cbn. tauto.
    + repeat split. cbn. tauto.
  - repeat split. cbn. tauto.
Qed.

Lemma valid_record_fields (s : student) (tq : Z) :
  is_valid tq s = true ->
  exists id name ans,
    student_id s = Some id /\ student_name s = Some name /\ answers s = Some ans /\
    Z.of_nat (List.length ans) = tq /\ check_answers 0 ans = (true, "").
Proof.
  unfold is_valid, validate_student_data.
  destruct (student_id s) as [id|]; [|discriminate].
  destruct (student_name s) as [name|]; [|discriminate].
  destruct (answers s) as [ans|]; [|discriminate].
  destruct (Z.eqb_spec (Z.of_nat (List.length ans)) tq) as [E|E]; cbn [negb]; [|discriminate].
  intros H. exists id, name, ans. repeat split; trivial.
  pose proof (check_answers_reason ans 0) as [Hr _].
  destruct (check_answers 0 ans) as [b r]. cbn in *. subst b. now rewrite (Hr eq_refl).
Qed.

(** ** Grades *)

Lemma geb_mono (p q t : float) : (p <= q)%py -> geb p t = true -> geb q t = true.
Proof. intros Hpq H. apply geb_le in H. apply geb_le. eapply le_trans; eauto. Qed.

Lemma grade_rank_mono (p q : float) :
  (p <= q)%py -> grade_rank (letter_grade_of p) <= grade_rank (letter_grade_of q).
Proof.
  intros Hpq. unfold letter_grade_of.
  destruct (geb p (of_Z 90)) eqn:P90.
  { rewrite (geb_mono _ Hpq P90). cbn. lia. }
  destruct (geb p (of_Z 80)) eqn:P80.
  { rewrite (geb_mono _ Hpq P80). destruct (geb q (of_Z 90)); cbn; lia. }
  destruct (geb p (of_Z 70)) eqn:P70.
  { rewrite (geb_mono _ Hpq P70).
    destruct (geb q (of_Z 90)), (geb q (of_Z 80)); cbn; lia. }
  destruct (geb p (of_Z 60)) eqn:P60.
  { rewrite (geb_mono _ Hpq P60).
    destruct (geb q (of_Z 90)), (geb q (of_Z 80)), (geb q (of_Z 70)); cbn; lia. }
  cbn. lia.
Qed.

(** X3: a higher percentage never gets a lower grade: where the lower one
    gets an A so does the higher one, and where the higher one gets an F so
    does the lower one. *)
Theorem letter_grade_monotone (p q : float) :
  (p <= q)%py ->
  grade_rank (letter_grade_of p) <= grade_rank (letter_grade_of q) /\
  (letter_grade_of p = gA -> letter_grade_of q = gA) /\
  (letter_grade_of q = gF -> letter_grade_of p = gF).
Proof.
  intros Hpq. pose proof (grade_rank_mono Hpq) as H.
  split; [exact H|].
  destruct (letter_grade_of p), (letter_grade_of q); cbn in H;
    split; intros E; try reflexivity; try discriminate E; lia.
Qed.

Lemma letter_grade_monotone_witness :
  grade_rank (letter_grade_of (of_Z 75)) <= grade_rank (letter_grade_of (of_Z 85)).
Proof.
  refine (proj1 (@letter_grade_monotone (of_Z 75) (of_Z 85) _)). vm_compute. reflexivity.
Defined.

(** ** Scoring *)

Lemma count_matches_le_key (sa key : list string) :
  count_matches sa key <= List.length key.
Proof.
  rewrite count_matches_positions.
  etransitivity; [apply agreeing_positions_bound | apply Nat.le_min_r].
Qed.

(** X4: with as many answers as questions, the count of right answers
    reaches the number of questions exactly when the answers are the key. *)
Theorem full_count_iff_answers_are_key (student_answers answer_key : list string) :
  List.length student_answers = List.length answer_key ->
  (count_matches student_answers answer_key = List.length answer_key
   <-> student_answers = answer_key).
Proof.
  revert answer_key.
  induction student_answers as [|a sa IH]; intros [|b key] Hlen; try discriminate Hlen.
  - split; reflexivity.
  - injection Hlen as Hlen. rewrite count_matches_cons. cbn [List.length].
    pose proof (count_matches_le_key sa key) as Hle.
    destruct (String.eqb_spec a b) as [->|Hab].
    + split.
      * intros H. f_equal. apply (IH key Hlen). lia.
      * intros [= H]. apply (IH key Hlen) in H. lia.
    + split; [lia | intros [= H _]; contradiction].
Qed.

Lemma full_count_iff_answers_are_key_witness :
  count_matches ["A"; "C"; "D"] ["A"; "C"; "D"] = 3 <-> ["A"; "C"; "D"] = ["A"; "C"; "D"].
Proof.
  apply (@full_count_iff_answers_are_key ["A"; "C"; "D"] ["A"; "C"; "D"]). reflexivity.
Defined.

(** X5: answers past the length of the key are never looked at. *)
Theorem surplus_answers_are_ignored (student_answers answer_key : list string) :
  calculate_grade student_answers answer_key
  = calculate_grade (firstn (List.length answer_key) student_answers) answer_key.
Proof.
  unfold calculate_grade, count_matches.
  rewrite <- (combine_firstn_r student_answers answer_key). reflexivity.
Qed.

(** X6: scoring fails exactly when the key is empty, whatever the answers,
    and then with the division by the number of questions. *)
Theorem calculate_grade_fails_iff_no_key (student_answers answer_key : list string) :
  ((exists e, calculate_grade student_answers answer_key = Raise e) <-> answer_key = []) /\
  (forall e, calculate_grade student_answers answer_key = Raise e -> e = ZeroDivisionError).
Proof.
  destruct answer_key as [|k key].
  - assert (H : calculate_grade student_answers [] = Raise ZeroDivisionError).
    { unfold calculate_grade, count_matches. now rewrite combine_nil. }
    rewrite H. split.
    + split; [reflexivity | eauto].
    + now intros e [= <-].
  - rewrite (@calculate_grade_eq student_answers (k :: key)) by discriminate. cbv zeta.
    split.
    + split; [intros [e H]; discriminate H | discriminate].
    + intros e H. discriminate H.
Qed.

(** ** Class statistics *)

Section Statistics.

Variable py_sum : list float -> float.

Lemma generate_summary_stats_nonempty (g : grade_data) (gs : list grade_data) :
  exists st, generate_summary_stats py_sum (g :: gs) = Ok st /\
             grade_distribution st
             = map (fun h => (h, count h (map letter_grade (g :: gs)))) all_grades.
Proof.
  unfold generate_summary_stats, float_truediv_int, py_max, py_min.
  rewrite length_map. cbn [List.length map]. rewrite Nat2Z.inj_succ.
  destruct (Z.eqb_spec (Z.succ (Z.of_nat (List.length gs))) 0); [lia|].
  cbn [bind]. eexists. split; reflexivity.
Qed.

(** X7: statistics are returned for every non-empty list of records,
    whatever floats it holds, and the only failure there is, on the empty
    list, is the division by zero. *)
Theorem generate_summary_stats_fails_iff_empty (gs : list grade_data) :
  ((exists st, generate_summary_stats py_sum gs = Ok st) <-> gs <> []) /\
  (forall e, generate_summary_stats py_sum gs = Raise e ->
             gs = [] /\ e = ZeroDivisionError).
Proof.
  destruct gs as [|g gs].
  - split.
    + split; [intros [st H]; discriminate H | congruence].
    + intros e [= <-]. split; reflexivity.
  - destruct (generate_summary_stats_nonempty g gs) as (st & H & _). split.
    + split; [discriminate | eauto].
    + intros e He. rewrite H in He. discriminate.
Qed.

Lemma count_positive_iff (g : grade) (l : list grade) : 0 < count g l <-> In g l.
Proof.
  unfold count. induction l as [|h l IH]; cbn [filter].
  - cbn. split; [lia | tauto].
  - destruct (grade_eqb g h) eqn:E; cbn [List.length In].
    + split; [|lia]. intros _. left. now destruct g, h.
    + rewrite IH. split; [tauto|]. intros [->|H]; trivial. now destruct g.
Qed.

Lemma distribution_line_grade (g h : grade) (k n : nat) :
  distribution_line g k = distribution_line h n -> g = h.
Proof. destruct g, h; trivial; cbn; discriminate. Qed.

(** X8: the printed distribution has a line for a grade exactly when some
    record has that grade, and the line then carries the number of such
    records. *)
Theorem distribution_lines_iff_grade_present (gs : list grade_data) (st : stats) (g : grade) :
  generate_summary_stats py_sum gs = Ok st ->
  ((exists k, In (distribution_line g k) (distribution_lines (grade_distribution st)))
   <-> exists r, In r gs /\ letter_grade r = g) /\
  ((exists r, In r gs /\ letter_grade r = g) ->
   In (distribution_line g (count g (map letter_grade gs)))
      (distribution_lines (grade_distribution st))).
Proof.
  intros Hst. destruct gs as [|g0 gs]; [discriminate Hst|].
  destruct (generate_summary_stats_nonempty g0 gs) as (st' & H & Hd).
  rewrite H in Hst. injection Hst as <-. rewrite Hd.
  set (l := map letter_grade (g0 :: gs)).
  assert (Hpresent : (exists r, In r (g0 :: gs) /\ letter_grade r = g) <-> In g l).
  { unfold l. rewrite in_map_iff. split; intros (r & A & B); exists r; tauto. }
  assert (Hline : In g l ->
            In (distribution_line g (count g l))
               (distribution_lines (map (fun h => (h, count h l)) all_grades))).
  { intros Hg. unfold distribution_lines. apply in_map_iff.
    exists (g, count g l). split; [reflexivity|].
    apply filter_In. split.
    - apply in_map_iff. exists g. split; trivial. destruct g; cbn; tauto.
    - apply Nat.ltb_lt. now apply count_positive_iff. }
  split.
  - rewrite Hpresent. split.
    + intros (k & Hk). unfold distribution_lines in Hk.
      apply in_map_iff in Hk as ([h n] & Heq & Hin).
      apply filter_In in Hin as [Hin Hpos].
      apply in_map_iff in Hin as (h' & [= <- <-] & _).
      apply distribution_line_grade in Heq. subst h'.
      apply count_positive_iff. now apply Nat.ltb_lt.
    + intros Hg. eexists. now apply Hline.
  - intros Hr. apply Hline. now apply Hpresent.
Qed.

End Statistics.

Lemma distribution_lines_iff_grade_present_witness :
  exists st,
    generate_summary_stats sum_left_to_right three_equal_scores = Ok st /\
    In (distribution_line gB 3) (distribution_lines (grade_distribution st)).
Proof.
  eexists. split; [vm_compute; reflexivity|].
  refine (proj2 (@distribution_lines_iff_grade_present sum_left_to_right
                   three_equal_scores _ gB _) _).
  - vm_compute. reflexivity.
  - exists (scored_8_of_9 "Ann"). split; [now left | reflexivity].
Defined.

(** ** The limit on the roster *)

(** X9: whatever the limit, the records processed are the first ones of the
    roster, in order: all of them without a limit or with 0, at most [n] of
    them for a positive [n], and all but the last [-n] for a negative one. *)
Theorem limited_is_prefix (l : list student) (limit_students : option Z) :
  (exists rest, l = List.app (limited l limit_students) rest) /\
  List.length (limited l limit_students) = limited_length (List.length l) limit_students.
Proof.
  unfold limited, limited_length, limit_truthy, slice_to.
  destruct limit_students as [n|].
  - destruct (Z.eqb_spec n 0) as [->|Hn]; cbn [negb].
    + split; [exists []; now rewrite app_nil_r | reflexivity].
    + destruct (n <? 0)%Z eqn:Hneg.
      * split; [eexists; symmetry; apply firstn_skipn|].
        rewrite length_firstn. apply Z.ltb_lt in Hneg. lia.
      * split; [eexists; symmetry; apply firstn_skipn|].
        now rewrite length_firstn.
  - split; [exists []; now rewrite app_nil_r | reflexivity].
Qed.

(** ** The loop over the students *)

Lemma process_student_invalid (tq : Z) (key : list string) (st : loop_state) (s : student) :
  is_valid tq s = false ->
  process_student tq key st s =
  Ok {| output_lines := output_lines st ++ [warning_for tq s];
        grades_data := grades_data st;
        processed_count := processed_count st |}.
Proof.
  unfold is_valid, process_student, warning_for.
  destruct (validate_student_data s tq) as [b msg]. cbn. now intros ->.
Qed.

Lemma process_student_valid_no_key (tq : Z) (st : loop_state) (s : student) :
  is_valid tq s = true -> process_student tq [] st s = Raise ZeroDivisionError.
Proof.
  intros Hv. destruct (@valid_record_fields s tq Hv) as (id & name & ans & Hid & Hn & Ha & _).
  unfold process_student. unfold is_valid in Hv.
  destruct (validate_student_data s tq) as [b msg]. cbn in Hv. subst b. cbn [negb].
  rewrite Ha. cbn [getitem bind].
  unfold calculate_grade, count_matches. now rewrite combine_nil.
Qed.

Lemma process_student_valid (tq : Z) (key : list string) (st : loop_state) (s : student) :
  is_valid tq s = true -> key <> [] ->
  exists r a b c d,
    gd_student_name r = graded_name s /\
    process_student tq key st s =
    Ok {| output_lines := output_lines st ++ [a; b; c; d];
          grades_data := grades_data st ++ [r];
          processed_count := processed_count st + 1 |}.
Proof.
  intros Hv Hk. destruct (@valid_record_fields s tq Hv) as (id & name & ans & Hid & Hn & Ha & _).
  unfold process_student. unfold is_valid in Hv.
  destruct (validate_student_data s tq) as [b msg]. cbn in Hv. subst b. cbn [negb].
  rewrite Ha, Hn, Hid. cbn [getitem bind].
  rewrite (@calculate_grade_eq ans key Hk). cbv zeta. cbn [bind].
  do 5 eexists. split; [|reflexivity]. unfold graded_name. now rewrite Hn.
Qed.

Lemma process_students_books (tq : Z) (key : list string) (l : list student)
  (st st' : loop_state) :
  process_students tq key st l = Ok st' ->
  let valid := filter (is_valid tq) l in
  let skipped := filter (fun s => negb (is_valid tq s)) l in
  processed_count st' = processed_count st + List.length valid /\
  map gd_student_name (grades_data st')
  = List.app (map gd_student_name (grades_data st)) (map graded_name valid) /\
  List.length (output_lines st')
  = List.length (output_lines st) + 4 * List.length valid + List.length skipped.
Proof.
  revert st. induction l as [|s l IH]; intros st H; cbn [process_students] in H.
  - injection H as <-. cbn. rewrite app_nil_r. repeat split; lia.
  - cbn [filter]. destruct (is_valid tq s) eqn:Hv; cbn [negb].
    + destruct key as [|k key].
      { rewrite (@process_student_valid_no_key tq st s Hv) in H. discriminate H. }
      destruct (@process_student_valid tq (k :: key) st s Hv ltac:(discriminate))
        as (r & a & b & c & d & Hr & Hs).
      rewrite Hs in H. cbn [bind] in H. apply IH in H. cbv zeta in H.
      cbn [processed_count grades_data output_lines] in H.
      destruct H as (H1 & H2 & H3). cbn [List.length map]. repeat split.
      * lia.
      * rewrite H2, map_app. cbn [map]. rewrite Hr, <- app_assoc. reflexivity.
      * rewrite H3, length_app. cbn [List.length]. lia.
    + rewrite (@process_student_invalid tq key st s Hv) in H. cbn [bind] in H.
      apply IH in H. cbv zeta in H.
      cbn [processed_count grades_data output_lines] in H.
      destruct H as (H1 & H2 & H3). cbn [List.length map]. repeat split.
      * exact H1.
      * exact H2.
      * rewrite H3, length_app. cbn [List.length]. lia.
Qed.

(** X10: the loop keeps its books: when it runs to its end, the count of
    processed students has grown by the number of valid records, one graded
    record was added for each of them, in roster order and under the
    student's name, and the output has grown by four lines for each valid
    record and by one line for each record skipped; so the count still is
    the number of graded records if it was before. *)
Theorem process_students_accounts (tq : Z) (key : list string) (l : list student)
  (st st' : loop_state) :
  process_students tq key st l = Ok st' ->
  let valid := filter (is_valid tq) l in
  let skipped := filter (fun s => negb (is_valid tq s)) l in
  processed_count st' = processed_count st + List.length valid /\
  map gd_student_name (grades_data st')
  = List.app (map gd_student_name (grades_data st)) (map graded_name valid) /\
  List.length (output_lines st')
  = List.length (output_lines st) + 4 * List.length valid + List.length skipped /\
  (processed_count st = List.length (grades_data st) ->
   processed_count st' = List.length (grades_data st')).
Proof.
  intros H valid skipped.
  destruct (process_students_books _ _ _ _ H) as (H1 & H2 & H3).
  fold valid in H1, H2, H3. fold skipped in H3.
  repeat split; trivial.
  intros Hinv. rewrite H1, Hinv.
  rewrite <- (length_map gd_student_name (grades_data st')), H2.
  now rewrite length_app, !length_map.
Qed.

Lemma process_students_accounts_witness :
  exists st',
    process_students 4 (answer_key sample_data)
      {| output_lines := []; grades_data := []; processed_count := 0 |}
      (students sample_data) = Ok st' /\
    processed_count st' = 2 /\
    map gd_student_name (grades_data st') = ["Ann"; "Dan"] /\
    List.length (output_lines st') = 10 /\
    (0 = 0 -> processed_count st' = List.length (grades_data st')).
Proof.
  eexists. split; [vm_compute; reflexivity|].
  refine (@process_students_accounts 4 (answer_key sample_data) (students sample_data)
            {| output_lines := []; grades_data := []; processed_count := 0 |} _ _).
  vm_compute. reflexivity.
Defined.

Lemma process_students_with_key (tq : Z) (key : list string) (l : list student) :
  key <> [] -> forall st, exists st', process_students tq key st l = Ok st'.
Proof.
  intros Hk. induction l as [|s l IH]; intros st; cbn [process_students].
  - eauto.
  - destruct (is_valid tq s) eqn:Hv.
    + destruct (@process_student_valid tq key st s Hv Hk) as (r & a & b & c & d & _ & Hs).
      rewrite Hs. cbn [bind]. apply IH.
    + rewrite (@process_student_invalid tq key st s Hv). cbn [bind]. apply IH.
Qed.

Lemma process_students_no_key (tq : Z) (l : list student) :
  Exists (fun s => is_valid tq s = true) l ->
  forall st, process_students tq [] st l = Raise ZeroDivisionError.
Proof.
  induction l as [|s l IH]; intros H st; [inversion H|].
  cbn [process_students]. destruct (is_valid tq s) eqn:Hv.
  - now rewrite (@process_student_valid_no_key tq st s Hv).
  - rewrite (@process_student_invalid tq [] st s Hv). cbn [bind]. apply IH.
    inversion H; subst; [congruence | assumption].
Qed.

Lemma some_valid_or_none (tq : Z) (l : list student) :
  Exists (fun s => is_valid tq s = true) l \/ Forall (fails_validation tq) l.
Proof.
  induction l as [|s l [IH|IH]].
  - right. constructor.
  - left. now apply Exists_cons_tl.
  - destruct (is_valid tq s) eqn:Hv.
    + left. now apply Exists_cons_hd.
    + right. constructor; assumption.
Qed.

Section Failures.

Variable py_sum : list float -> float.

Lemma summary_lines_ok (st : loop_state) : exists tail, summary_lines py_sum st = Ok tail.
Proof.
  unfold summary_lines. destruct (grades_data st) as [|g gs]; [eauto|].
  destruct (generate_summary_stats_nonempty py_sum g gs) as (stats & H & _).
  rewrite H. cbn [bind]. eauto.
Qed.

Lemma report_with_key (data : exam_data) (limit_students : option Z) :
  answer_key data <> [] -> exists text, report py_sum data limit_students = Ok text.
Proof.
  intros Hk. unfold report, report_lines.
  destruct (@process_students_with_key (total_questions (info data)) (answer_key data)
              (limited (students data) limit_students) Hk
              {| output_lines := header_lines (info data);
                 grades_data := []; processed_count := 0 |}) as [st Hst].
  rewrite Hst. cbn [bind].
  destruct (summary_lines_ok st) as [tail Ht]. rewrite Ht. cbn [bind]. eauto.
Qed.

Lemma report_without_key (data : exam_data) (limit_students : option Z) :
  answer_key data = [] ->
  Exists (fun s => is_valid (total_questions (info data)) s = true)
         (limited (students data) limit_students) ->
  report py_sum data limit_students = Raise ZeroDivisionError.
Proof.
  intros Hkey Hex. unfold report, report_lines. rewrite Hkey.
  now rewrite (@process_students_no_key _ _ Hex).
Qed.

Lemma report_without_valid (data : exam_data) (limit_students : option Z) :
  Forall (fails_validation (total_questions (info data)))
         (limited (students data) limit_students) ->
  exists text, report py_sum data limit_students = Ok text.
Proof.
  intros Hall. unfold report, report_lines.
  rewrite process_students_all_invalid by assumption.
  cbn [bind]. unfold summary_lines. cbn [grades_data bind]. eauto.
Qed.

(** The two outcomes of a report. *)
Lemma report_outcome (data : exam_data) (limit_students : option Z) :
  (exists text, report py_sum data limit_students = Ok text) \/
  (report py_sum data limit_students = Raise ZeroDivisionError /\
   answer_key data = [] /\
   Exists (fun s => is_valid (total_questions (info data)) s = true)
          (limited (students data) limit_students)).
Proof.
  destruct (answer_key data) as [|k key] eqn:Hkey.
  - destruct (some_valid_or_none (total_questions (info data))
                (limited (students data) limit_students)) as [Hex|Hall].
    + right. repeat split; trivial. now apply report_without_key.
    + left. now apply report_without_valid.
  - left. apply report_with_key. rewrite Hkey. discriminate.
Qed.

(** X11: on data of the input format (an [exam_info] with its three
    fields, a key and a roster that are lists, records in which each field
    that is present has its declared type), what [process_grades] does after
    loading fails in one way only: with a division by zero, when the answer
    key is empty and one of the records it processes is valid; in every
    other case, and so whenever the key is not empty, it returns a report. *)
Theorem report_fails_iff (data : exam_data) (limit_students : option Z) (e : exn) :
  (report py_sum data limit_students = Raise e <->
   e = ZeroDivisionError /\ answer_key data = [] /\
   Exists (fun s => is_valid (total_questions (info data)) s = true)
          (limited (students data) limit_students)) /\
  (answer_key data <> [] -> exists text, report py_sum data limit_students = Ok text).
Proof.
  split; [|apply report_with_key].
  destruct (report_outcome data limit_students) as [[text H]|(H & Hkey & Hex)].
  - rewrite H. split; [discriminate|].
    intros (_ & Hkey & Hex). rewrite (report_without_key _ _ Hkey Hex) in H. discriminate H.
  - rewrite H. split; [intros [= <-]; auto | intros (-> & _); reflexivity].
Qed.

(** ** The outcomes of [main] *)

Lemma main_raised (w : world) (data : exam_data) :
  readable w "exam_data.json" = Json data ->
  report py_sum data (Some 3%Z) = Raise ZeroDivisionError ->
  main py_sum w = (1%Z, world_after_failure w (unexpected_error_line ZeroDivisionError)).
Proof.
  intros Hf Hr. unfold main, main_body, seq_io. cbn [print].
  rewrite (process_grades_loaded py_sum _ (data := data)) by exact Hf.
  rewrite Hr. cbn. unfold world_after_failure. cbn.
  repeat rewrite <- app_assoc. reflexivity.
Qed.

Lemma main_not_loaded (w : world) :
  (readable w "exam_data.json" = NoSuchFile \/
   exists msg, readable w "exam_data.json" = Malformed msg) ->
  main py_sum w
  = (1%Z, world_after_failure w (load_error_line (readable w "exam_data.json"))).
Proof.
  intros H. unfold main, main_body, seq_io, process_grades, load_exam_data.
  cbn [print readable].
  destruct H as [Hf|[msg Hf]]; rewrite Hf; cbn; unfold world_after_failure; cbn;
    rewrite <- app_assoc; reflexivity.
Qed.

Lemma main_load_raises (w : world) (m : string) :
  readable w "exam_data.json" = Unreadable m ->
  main py_sum w = (1%Z, world_after_failure w (unexpected_error_line (OtherError m))).
Proof.
  intros Hf. unfold main, main_body, seq_io, process_grades, load_exam_data.
  cbn [print readable]. rewrite Hf. cbn. unfold world_after_failure. cbn.
  rewrite <- app_assoc. reflexivity.
Qed.

Lemma load_error_is_not_unexpected (c : file_content) (e : exn) :
  (c = NoSuchFile \/ exists msg, c = Malformed msg) ->
  load_error_line c <> unexpected_error_line e.
Proof. intros [->|[msg ->]]; discriminate. Qed.

(** X12: when the exam file cannot be loaded, [main] writes no file and ends
    with status 1 after one more line.  For a missing file and for text the
    parser rejects with its own error, the two cases the loader catches, the
    line is the loader's and no line for an unexpected error is printed; for
    any other failure of opening or reading, which the loader lets through,
    the line reports that failure as an unexpected error. *)
Theorem main_on_unreadable_file (w : world) :
  (readable w "exam_data.json" = NoSuchFile \/
   (exists msg, readable w "exam_data.json" = Malformed msg) \/
   (exists m, readable w "exam_data.json" = Unreadable m)) ->
  main py_sum w
  = (1%Z, world_after_failure w (line_on_load_failure (readable w "exam_data.json"))) /\
  written (snd (main py_sum w)) = written w /\
  (readable w "exam_data.json" = NoSuchFile ->
   line_on_load_failure (readable w "exam_data.json")
   = "Error: Could not find data file 'exam_data.json'") /\
  (forall msg, readable w "exam_data.json" = Malformed msg ->
   line_on_load_failure (readable w "exam_data.json")
   = "Error: Invalid JSON format in 'exam_data.json': " ++ msg) /\
  (forall m, readable w "exam_data.json" = Unreadable m ->
   line_on_load_failure (readable w "exam_data.json")
   = unexpected_error_line (OtherError m) /\
   fst (load_exam_data "exam_data.json" w) = Raise (OtherError m)) /\
  ((readable w "exam_data.json" = NoSuchFile \/
    exists msg, readable w "exam_data.json" = Malformed msg) ->
   fst (load_exam_data "exam_data.json" w) = Raise (SystemExit 1) /\
   forall e, line_on_load_failure (readable w "exam_data.json") <> unexpected_error_line e).
Proof.
  intros Hno.
  assert (Hmain : main py_sum w
    = (1%Z, world_after_failure w (line_on_load_failure (readable w "exam_data.json")))).
  { destruct Hno as [Hf|[[msg Hf]|[m Hf]]].
    - rewrite (main_not_loaded w (or_introl Hf)), Hf. reflexivity.
    - rewrite (main_not_loaded w (or_intror (ex_intro _ msg Hf))), Hf. reflexivity.
    - rewrite (main_load_raises w Hf), Hf. reflexivity. }
  split; [exact Hmain|]. split; [now rewrite Hmain|].
  split; [|split; [|split]].
  - intros ->. reflexivity.
  - intros msg ->. reflexivity.
  - intros m Hf. unfold load_exam_data. rewrite Hf. split; reflexivity.
  - intros H. split.
    + unfold load_exam_data. destruct H as [Hf|[msg Hf]]; rewrite Hf; reflexivity.
    + intros e. destruct H as [Hf|[msg Hf]]; rewrite Hf; cbn [line_on_load_failure];
        apply load_error_is_not_unexpected; eauto.
Qed.

(** X13: with an empty answer key and a valid record among the first three,
    [main] reports a division by zero as an unexpected error, writes no file
    and ends with status 1. *)
Theorem main_on_empty_key (w : world) (data : exam_data) :
  readable w "exam_data.json" = Json data ->
  answer_key data = [] ->
  Exists (fun s => is_valid (total_questions (info data)) s = true)
         (firstn 3 (students data)) ->
  main py_sum w = (1%Z, world_after_failure w (unexpected_error_line ZeroDivisionError)) /\
  exn_message ZeroDivisionError = "division by zero".
Proof.
  intros Hf Hk Hex. split; [|reflexivity].
  apply (main_raised w Hf). now apply report_without_key.
Qed.

End Failures.

(** Sample worlds for the failures. *)

Lemma main_on_unreadable_file_witness :
  main sum_left_to_right {| readable := fun _ => NoSuchFile; written := []; stdout := [] |}
  = (1%Z, {| readable := fun _ => NoSuchFile;
             written := [];
             stdout := [ "Processing grades for 3 students...";
                         "Error: Could not find data file 'exam_data.json'" ] |}).
Proof.
  refine (proj1 (@main_on_unreadable_file sum_left_to_right
                   {| readable := fun _ => NoSuchFile; written := []; stdout := [] |} _)).
  left. reflexivity.
Defined.

Lemma main_on_empty_key_witness :
  main sum_left_to_right (world_with keyless_data)
  = (1%Z, world_after_failure (world_with keyless_data)
            (unexpected_error_line ZeroDivisionError)) /\
  exn_message ZeroDivisionError = "division by zero".
Proof.
  apply (@main_on_empty_key sum_left_to_right (world_with keyless_data) keyless_data).
  - reflexivity.
  - reflexivity.
  - apply Exists_cons_hd. reflexivity.
Defined.

(** ** The shape of a report with grades *)

Lemma process_students_appends (tq : Z) (key : list string) (l : list student) :
  forall st st', process_students tq key st l = Ok st' ->
                 exists extra, output_lines st' = List.app (output_lines st) extra.
Proof.
  induction l as [|s l IH]; intros st st' H; cbn [process_students] in H.
  - injection H as <-. exists []. now rewrite app_nil_r.
  - destruct (process_student tq key st s) as [st1|e] eqn:Hs; [|discriminate H].
    cbn [bind] in H. apply IH in H as [extra H].
    assert (H1 : exists one, output_lines st1 = List.app (output_lines st) one).
    { destruct (is_valid tq s) eqn:Hv.
      - destruct key as [|k key].
        + rewrite (@process_student_valid_no_key tq st s Hv) in Hs. discriminate Hs.
        + destruct (@process_student_valid tq (k :: key) st s Hv ltac:(discriminate))
            as (r & a & b & c & d & _ & Hs').
          rewrite Hs' in Hs. injection Hs as <-. cbn [output_lines]. eauto.
      - rewrite (@process_student_invalid tq key st s Hv) in Hs.
        injection Hs as <-. cbn [output_lines]. eauto. }
    destruct H1 as [one H1]. exists (List.app one extra).
    now rewrite H, H1, <- app_assoc.
Qed.

Section ReportShape.

Variable py_sum : list float -> float.

(** X16: a report always starts with the six header lines; when some
    processed record is valid it holds the summary title and the line
    [Students Processed: v], [v] being the number of valid records among
    those processed, and when none is valid it ends with the notice. *)
Theorem report_header_and_count (data : exam_data) (limit_students : option Z)
  (lines : list string) :
  report_lines py_sum data limit_students = Ok lines ->
  let v := List.length (filter (is_valid (total_questions (info data)))
                               (limited (students data) limit_students)) in
  firstn 6 lines = header_lines (info data) /\
  (0 < v -> In summary_title lines /\
            In ("Students Processed: " ++ str_of_nat v) lines) /\
  (v = 0 -> exists before, lines = List.app before [no_data_notice]).
Proof.
  intros H v. unfold report_lines in H.
  destruct (process_students (total_questions (info data)) (answer_key data)
              {| output_lines := header_lines (info data);
                 grades_data := []; processed_count := 0 |}
              (limited (students data) limit_students)) as [st|e] eqn:Hst;
    [|discriminate H].
  cbn [bind] in H.
  pose proof (process_students_books _ _ _ _ Hst) as (Hcount & Hnames & _).
  cbn [processed_count grades_data map List.app] in Hcount, Hnames. fold v in Hcount.
  assert (Hlen : List.length (grades_data st) = v).
  { rewrite <- (length_map gd_student_name), Hnames, length_map. reflexivity. }
  destruct (process_students_appends _ _ _ _ Hst) as [extra Hout].
  cbn [output_lines] in Hout.
  unfold summary_lines in H.
  destruct (grades_data st) as [|g gs] eqn:Hg.
  - cbn [bind] in H. injection H as <-. rewrite Hout. cbn in Hlen.
    split; [reflexivity | split].
    + intros Hv. lia.
    + intros _. eexists. reflexivity.
  - destruct (generate_summary_stats_nonempty py_sum g gs) as (stats & Hs & _).
    rewrite Hs in H. cbn [bind] in H. injection H as <-. rewrite Hout. cbn in Hlen.
    split; [reflexivity | split].
    + intros _. split.
      * apply in_or_app. right. now left.
      * apply in_or_app. right. right. right. left. now rewrite Hcount.
    + intros Hv. lia.
Qed.

End ReportShape.

Lemma report_header_and_count_witness :
  exists lines,
    report_lines sum_left_to_right sample_data None = Ok lines /\
    firstn 6 lines = header_lines sample_exam /\
    In ("Students Processed: " ++ str_of_nat 2) lines.
Proof.
  eexists. split; [vm_compute; reflexivity|].
  pose proof (@report_header_and_count sum_left_to_right sample_data None _
                ltac:(vm_compute; reflexivity)) as (H1 & H2 & _).
  split; [exact H1|]. apply H2. vm_compute. lia.
Defined.

(** ** Percentages up to 64 questions *)

Lemma percentage_checks_upto_64 (c n : nat) :
  0 < n <= 64 -> c <= n -> percentage_checks c n = true.
Proof.
  intros Hn Hc.
  assert (H : forallb (fun n => forallb (fun c => percentage_checks c n) (seq 0 (S n)))
                      (seq 1 64) = true) by (vm_compute; reflexivity).
  rewrite forallb_forall in H. specialize (H n). rewrite in_seq in H.
  assert (H' := H ltac:(lia)). rewrite forallb_forall in H'.
  apply H'. apply in_seq. lia.
Qed.

Lemma percentage_checks_inv (c n : nat) :
  percentage_checks c n = true ->
  (of_Z 0 <= percentage_of c n)%py /\ (percentage_of c n <= of_Z 100)%py /\
  (SFeqb (percentage_of c n) (of_Z 100) = true <-> c = n) /\
  (SFeqb (percentage_of c n) (of_Z 0) = true <-> c = 0) /\
  (percentage_of c n <= percentage_of (S c) n)%py.
Proof.
  unfold percentage_checks. rewrite !andb_true_iff.
  intros ((((H1 & H2) & H3) & H4) & H5).
  apply Bool.eqb_prop in H3, H4. rewrite H3, H4, !Nat.eqb_eq. tauto.
Qed.

Lemma percentage_monotone_upto_64 (n c1 c2 : nat) :
  0 < n <= 64 -> c1 <= c2 -> c2 <= n -> (percentage_of c1 n <= percentage_of c2 n)%py.
Proof.
  intros Hn H12 H2. induction H12 as [|c2 H12 IH].
  - apply le_refl.
    destruct (@percentage_checks_inv _ _ (@percentage_checks_upto_64 _ _ Hn H2)) as (H & _).
    eapply le_not_nan_r; eauto.
  - apply le_trans with (percentage_of c2 n); [apply IH; lia|].
    assert (Hc : c2 <= n) by lia.
    now destruct (@percentage_checks_inv _ _ (@percentage_checks_upto_64 _ _ Hn Hc)) as (_ & _ & _ & _ & H).
Qed.

(** X17: on an exam of up to 64 questions, two students are ranked by their
    right answers: the one with no fewer right answers has no lower a
    percentage and no lower a grade, and both percentages lie between 0.0
    and 100.0. *)
Theorem more_right_answers_no_lower_grade (answers1 answers2 answer_key : list string) :
  0 < List.length answer_key <= 64 ->
  count_matches answers1 answer_key <= count_matches answers2 answer_key ->
  exists p1 p2,
    calculate_grade answers1 answer_key
    = Ok (count_matches answers1 answer_key, p1, letter_grade_of p1) /\
    calculate_grade answers2 answer_key
    = Ok (count_matches answers2 answer_key, p2, letter_grade_of p2) /\
    (of_Z 0 <= p1)%py /\ (p1 <= p2)%py /\ (p2 <= of_Z 100)%py /\
    grade_rank (letter_grade_of p1) <= grade_rank (letter_grade_of p2).
Proof.
  intros Hn Hc.
  assert (Hk : answer_key <> []) by (destruct answer_key; [cbn in Hn; lia | discriminate]).
  pose proof (count_matches_le_key answers1 answer_key) as H1.
  pose proof (count_matches_le_key answers2 answer_key) as H2.
  exists (percentage_of (count_matches answers1 answer_key) (List.length answer_key)),
         (percentage_of (count_matches answers2 answer_key) (List.length answer_key)).
  assert (Hm := percentage_monotone_upto_64 Hn Hc H2).
  destruct (@percentage_checks_inv _ _ (@percentage_checks_upto_64 _ _ Hn H1)) as (Hlo & _).
  destruct (@percentage_checks_inv _ _ (@percentage_checks_upto_64 _ _ Hn H2)) as (_ & Hhi & _).
  repeat split; trivial.
  - now rewrite calculate_grade_eq.
  - now rewrite calculate_grade_eq.
  - now apply grade_rank_mono.
Qed.

Lemma more_right_answers_no_lower_grade_witness :
  exists p1 p2,
    calculate_grade ["A"; "A"; "A"] ["A"; "B"; "C"] = Ok (1, p1, letter_grade_of p1) /\
    calculate_grade ["A"; "B"; "A"] ["A"; "B"; "C"] = Ok (2, p2, letter_grade_of p2) /\
    (of_Z 0 <= p1)%py /\ (p1 <= p2)%py /\ (p2 <= of_Z 100)%py /\
    grade_rank (letter_grade_of p1) <= grade_rank (letter_grade_of p2).
Proof.
  apply (@more_right_answers_no_lower_grade ["A"; "A"; "A"] ["A"; "B"; "A"] ["A"; "B"; "C"]).
  - cbn. lia.
  - cbn. lia.
Defined.

Lemma count_matches_self (key : list string) : count_matches key key = List.length key.
Proof.
  induction key as [|a key IH]; [reflexivity|].
  rewrite count_matches_cons, String.eqb_refl, IH. reflexivity.
Qed.

Lemma extreme_percentages_upto_64 :
  Forall (fun n => percentage_of n n = of_Z 100 /\ percentage_of 0 n = of_Z 0) (seq 1 64).
Proof.
  cbn [seq]. repeat (constructor; [split; vm_compute; reflexivity|]). constructor.
Qed.

(** X18: on an exam of up to 64 questions, answers equal to the key score
    exactly 100.0 and an A, answers with nothing right score exactly 0.0 and
    an F, and no other count of right answers reaches 100.0 or 0.0. *)
Theorem extreme_scores (student_answers answer_key : list string) :
  0 < List.length answer_key <= 64 ->
  calculate_grade answer_key answer_key = Ok (List.length answer_key, of_Z 100, gA) /\
  (count_matches student_answers answer_key = 0 ->
   calculate_grade student_answers answer_key = Ok (0, of_Z 0, gF)) /\
  (forall c p g,
     calculate_grade student_answers answer_key = Ok (c, p, g) ->
     (SFeqb p (of_Z 100) = true <-> c = List.length answer_key) /\
     (SFeqb p (of_Z 0) = true <-> c = 0)).
Proof.
  intros Hn.
  assert (Hk : answer_key <> []) by (destruct answer_key; [cbn in Hn; lia | discriminate]).
  pose proof extreme_percentages_upto_64 as Hx. rewrite Forall_forall in Hx.
  destruct (Hx (List.length answer_key)) as [H100 H0]; [apply in_seq; lia|].
  split; [|split].
  - rewrite calculate_grade_eq by assumption. cbv zeta. rewrite count_matches_self.
    fold (percentage_of (List.length answer_key) (List.length answer_key)).
    rewrite H100. reflexivity.
  - intros Hz. rewrite calculate_grade_eq by assumption. cbv zeta. rewrite Hz.
    fold (percentage_of 0 (List.length answer_key)). rewrite H0. reflexivity.
  - intros c p g. rewrite calculate_grade_eq by assumption. cbv zeta.
    intros [= <- <- _].
    pose proof (count_matches_le_key student_answers answer_key) as Hc.
    destruct (@percentage_checks_inv _ _ (@percentage_checks_upto_64 _ _ Hn Hc))
      as (_ & _ & Ha & Hb & _).
    split; assumption.
Qed.

Lemma extreme_scores_witness :
  calculate_grade ["A"; "B"; "C"] ["A"; "B"; "C"] = Ok (3, of_Z 100, gA).
Proof.
  refine (proj1 (@extreme_scores ["B"; "B"; "C"] ["A"; "B"; "C"] _)). cbn. lia.
Defined.

(** ** Validation of records of any shape *)

Section AnyRecordProperties.

Variable str_of_other : json -> string.

Lemma check_items_typed (l : list string) (i : nat) :
  check_items str_of_other i (map JStr l) = Ok (check_answers i l).
Proof.
  revert i. induction l as [|a l IH]; intros i; cbn [map check_items check_answers].
  - reflexivity.
  - cbn [not_in_valid_answers bind]. destruct (negb (is_valid_answer a)); [reflexivity|].
    apply IH.
Qed.

(** On the dictionary of a record of the input format, the function is the
    one of the typed records. *)
Lemma validate_student_dict_typed (s : student) (total_questions : Z) :
  validate_student_dict str_of_other (student_dict s) total_questions
  = Ok (validate_student_data s total_questions).
Proof.
  unfold validate_student_dict, validate_student_data, student_dict.
  destruct (student_id s) as [id|], (student_name s) as [name|], (answers s) as [ans|];
    try reflexivity.
  cbn. rewrite length_map.
  destruct (negb (Z.of_nat (List.length ans) =? total_questions)%Z); [reflexivity|].
  apply check_items_typed.
Qed.

Lemma not_in_valid_cases (a : json) :
  (scalar a /\ outside_valid_answers a /\ not_in_valid_answers a = Ok true) \/
  (scalar a /\ ~ outside_valid_answers a /\ not_in_valid_answers a = Ok false) \/
  (~ scalar a /\ outside_valid_answers a /\
   not_in_valid_answers a = Raise (TypeError ("unhashable type: '" ++ type_name a ++ "'"))).
Proof.
  unfold outside_valid_answers.
  destruct a as [| b | z | x | s | l | d]; cbn [scalar not_in_valid_answers];
    try (left; split; [exact I|]; split; [intros s' [=] | reflexivity]);
    try (right; right; split; [tauto|]; split; [intros s' [=] | reflexivity]).
  destruct (is_valid_answer s) eqn:E; cbn [negb].
  - right. left. split; [exact I|]. split; [|reflexivity].
    apply is_valid_answer_iff in E. intros H. now apply (H s).
  - left. split; [exact I|]. split; [|reflexivity].
    apply is_valid_answer_false_iff in E. now intros s' [= <-].
Qed.

(** The three ways the loop over the answers ends: past the last item, at
    the first item outside the valid set when it can be hashed, and with an
    error at that item when it cannot. *)
Lemma check_items_cases (l : list json) (i : nat) :
  (Forall (fun a => ~ outside_valid_answers a) l /\
   check_items str_of_other i l = Ok (true, "")) \/
  (exists k a,
     first_item_outside l k a /\
     ((scalar a /\
       check_items str_of_other i l
       = Ok (false, "Invalid answer '" ++ py_format str_of_other a ++ "' at question "
                    ++ str_of_nat (i + k + 1))) \/
      (~ scalar a /\
       check_items str_of_other i l
       = Raise (TypeError ("unhashable type: '" ++ type_name a ++ "'"))))).
Proof.
  revert i. induction l as [|x l IH]; intros i; cbn [check_items].
  - left. split; [constructor | reflexivity].
  - assert (Hhead : outside_valid_answers x -> first_item_outside (x :: l) 0 x).
    { intros Hout. repeat split; trivial. intros j b Hj. lia. }
    destruct (not_in_valid_cases x) as [(Hs & Hout & ->)|[(Hs & Hin & ->)|(Hs & Hout & ->)]];
      cbn [bind].
    + right. exists 0, x. split; [auto|]. left. split; [exact Hs|].
      now rewrite Nat.add_0_r.
    + destruct (IH (S i)) as [[Hall Hc]|(k & a & (Hk & Ha & Hfirst) & Hc)].
      * left. split; [now constructor | exact Hc].
      * right. exists (S k), a. split.
        -- repeat split; trivial. intros [|j] b Hj Hb.
           ++ cbn in Hb. now injection Hb as <-.
           ++ cbn in Hb. apply (Hfirst j b); [lia | assumption].
        -- now replace (i + S k + 1) with (S i + k + 1) by lia.
    + right. exists 0, x. split; [auto|]. right. split; [exact Hs | reflexivity].
Qed.

Lemma first_item_outside_unique (l : list json) (k k' : nat) (a a' : json) :
  first_item_outside l k a -> first_item_outside l k' a' -> k = k' /\ a = a'.
Proof.
  intros (Hk & Ha & Hfirst) (Hk' & Ha' & Hfirst').
  assert (E : k = k').
  { destruct (Nat.lt_trichotomy k k') as [H|[H|H]]; trivial.
    - exfalso. now apply (Hfirst' k a H Hk).
    - exfalso. now apply (Hfirst k' a' H Hk'). }
  subst k'. split; [reflexivity | congruence].
Qed.

Lemma first_item_outside_In (l : list json) (k : nat) (a : json) :
  first_item_outside l k a -> In a l /\ outside_valid_answers a.
Proof. intros (Hk & Ha & _). split; [eapply nth_error_In; eauto | exact Ha]. Qed.

Lemma first_missing_some (d : dict) (field : string) :
  find (fun field => negb (dict_has field d)) required_fields = Some field ->
  In field required_fields /\ dict_get field d = None.
Proof.
  intros H. apply find_some in H as [Hin Hf]. split; [exact Hin|].
  unfold dict_has in Hf. now destruct (dict_get field d).
Qed.

Lemma first_missing_none (d : dict) :
  find (fun field => negb (dict_has field d)) required_fields = None ->
  has_required_fields d.
Proof.
  intros H field Hin. pose proof (find_none _ _ H field Hin) as Hf.
  unfold dict_has in Hf. now destruct (dict_get field d).
Qed.

(** Every path through the function, with what it returns. *)
Lemma validate_student_dict_cases (d : dict) (total_questions : Z) :
  (exists field,
     In field required_fields /\ dict_get field d = None /\
     validate_student_dict str_of_other d total_questions
     = Ok (false, "Missing required field: " ++ field)) \/
  (has_required_fields d /\
   exists v,
     dict_get "answers" d = Some v /\
     ((sequence_items v = None /\
       validate_student_dict str_of_other d total_questions
       = Raise (TypeError ("object of type '" ++ type_name v ++ "' has no len()"))) \/
      exists items,
        sequence_items v = Some items /\
        ((Z.of_nat (List.length items) <> total_questions /\
          validate_student_dict str_of_other d total_questions
          = Ok (false, "Expected " ++ str_of_Z total_questions ++ " answers, got "
                       ++ str_of_nat (List.length items))) \/
         (Z.of_nat (List.length items) = total_questions /\
          Forall (fun a => ~ outside_valid_answers a) items /\
          validate_student_dict str_of_other d total_questions = Ok (true, "")) \/
         (Z.of_nat (List.length items) = total_questions /\
          exists k a,
            first_item_outside items k a /\
            ((scalar a /\
              validate_student_dict str_of_other d total_questions
              = Ok (false, "Invalid answer '" ++ py_format str_of_other a
                           ++ "' at question " ++ str_of_nat (k + 1))) \/
             (~ scalar a /\
              validate_student_dict str_of_other d total_questions
              = Raise (TypeError ("unhashable type: '" ++ type_name a ++ "'")))))))).
Proof.
  unfold validate_student_dict.
  destruct (find (fun field => negb (dict_has field d)) required_fields)
    as [field|] eqn:Hfind.
  - left. exists field. apply first_missing_some in Hfind. tauto.
  - right. pose proof (@first_missing_none d Hfind) as Hall. split; [exact Hall|].
    unfold dict_getitem.
    destruct (dict_get "answers" d) as [v|] eqn:Hv.
    2:{ exfalso. apply (Hall "answers"); [cbn; tauto | exact Hv]. }
    exists v. split; [reflexivity|]. cbn [bind].
    destruct (sequence_items v) as [items|]; [right | left; split; reflexivity].
    exists items. split; [reflexivity|].
    destruct (Z.eqb_spec (Z.of_nat (List.length items)) total_questions) as [Hlen|Hlen];
      cbn [negb].
    + right. destruct (check_items_cases items 0) as [[Hinside Hc]|(k & a & Hfirst & Hc)].
      * left. auto.
      * right. split; [exact Hlen|]. exists k, a. split; [exact Hfirst|]. exact Hc.
    + left. auto.
Qed.

(** C3, as amended.  The function raises, and then a [TypeError], exactly
    on the records that have every required field and whose answers either
    have no length or have the expected length and a list or a dictionary as
    their first item outside A..D.  On every other record the answer is
    [(False, reason)] exactly when a required field is missing, or the
    number of answers is not [total_questions], or some answer is outside
    A..D, and it is [(True, "")] otherwise. *)
Theorem validate_student_dict_spec (d : dict) (total_questions : Z) :
  (forall e, validate_student_dict str_of_other d total_questions = Raise e ->
             exists message, e = TypeError message) /\
  ((exists e, validate_student_dict str_of_other d total_questions = Raise e)
   <-> ill_typed_answers d total_questions) /\
  (~ ill_typed_answers d total_questions ->
   ((exists reason,
       validate_student_dict str_of_other d total_questions = Ok (false, reason))
    <-> rejected_dict d total_questions) /\
   (~ rejected_dict d total_questions ->
    validate_student_dict str_of_other d total_questions = Ok (true, ""))).
Proof.
  unfold ill_typed_answers, answers_without_length, first_violation_unhashable,
    rejected_dict.
  destruct (validate_student_dict_cases d total_questions)
    as [(field & Hin & Hnone & ->)
       |(Hall & v & Hv &
         [(Hitems & ->)
         |(items & Hitems &
           [(Hlen & ->)
           |[(Hlen & Hinside & ->)
            |(Hlen & k & a & Hfirst & [(Hs & ->)|(Hs & ->)])]])])].
  - (* a field is missing *)
    assert (Hnot : ~ has_required_fields d) by (intros H; now apply (H field Hin)).
    split; [intros e [=]|]. split.
    + split; [intros [e [=]] | intros [H _]; contradiction].
    + intros _. split; [|intros []; eauto]. split; eauto.
  - (* the answers have no length *)
    split; [intros e [= <-]; eauto|]. split.
    + split; [|eauto]. intros _. split; [exact Hall|]. left. eauto.
    + intros []. split; [exact Hall|]. left. eauto.
  - (* the wrong number of answers *)
    split; [intros e [=]|]. split.
    + split; [intros [e [=]]|].
      intros [_ [(v' & Hv' & Hn)|(v' & items' & k & a & Hv' & Hi & Hl & _)]].
      * congruence.
      * rewrite Hv in Hv'. injection Hv' as <-. rewrite Hitems in Hi.
        injection Hi as <-. contradiction.
    + intros _. split; [|intros []; right; exists v, items; auto].
      split; [|eauto]. intros _. right. exists v, items. auto.
  - (* every answer is valid *)
    rewrite Forall_forall in Hinside.
    split; [intros e [=]|]. split.
    + split; [intros [e [=]]|].
      intros [_ [(v' & Hv' & Hn)|(v' & items' & k & a & Hv' & Hi & _ & Hfirst & _)]].
      * congruence.
      * rewrite Hv in Hv'. injection Hv' as <-. rewrite Hitems in Hi.
        injection Hi as <-. apply first_item_outside_In in Hfirst as [Hin Hout].
        exfalso. now apply (Hinside a Hin).
    + intros _. split; [|reflexivity]. split; [intros [r [=]]|].
      intros [(field & Hin & Hnone)|(v' & items' & Hv' & Hi & [H|(a & Hin & Hout)])].
      * exfalso. now apply (Hall field Hin).
      * rewrite Hv in Hv'. injection Hv' as <-. rewrite Hitems in Hi.
        injection Hi as <-. contradiction.
      * rewrite Hv in Hv'. injection Hv' as <-. rewrite Hitems in Hi.
        injection Hi as <-. exfalso. now apply (Hinside a Hin).
  - (* the first answer outside the set can be hashed *)
    pose proof (first_item_outside_In Hfirst) as [Hin Hout].
    split; [intros e [=]|]. split.
    + split; [intros [e [=]]|].
      intros [_ [(v' & Hv' & Hn)|(v' & items' & k' & a' & Hv' & Hi & _ & Hfirst' & Hs')]].
      * congruence.
      * rewrite Hv in Hv'. injection Hv' as <-. rewrite Hitems in Hi.
        injection Hi as <-.
        destruct (first_item_outside_unique Hfirst Hfirst') as [_ <-]. contradiction.
    + intros _. split; [|intros []; right; exists v, items; eauto 6].
      split; [|eauto]. intros _. right. exists v, items. eauto 6.
  - (* the first answer outside the set cannot be hashed *)
    split; [intros e [= <-]; eauto|]. split.
    + split; [|eauto]. intros _. split; [exact Hall|]. right.
      exists v, items, k, a. auto.
    + intros []. split; [exact Hall|]. right. exists v, items, k, a. auto.
Qed.

(** C8, as amended: when the record has [student_id] and [student_name] and
    its answers have the expected length and an item outside A..D, then, if
    the first such item is not a list or a dictionary, the reason names that
    item, as [str] writes it, and its position counted from 1; if it is one,
    the function raises a [TypeError] and gives no reason. *)
Theorem validate_names_first_invalid_answer (d : dict) (total_questions : Z)
  (v : json) (items : list json) :
  dict_get "student_id" d <> None -> dict_get "student_name" d <> None ->
  dict_get "answers" d = Some v -> sequence_items v = Some items ->
  Z.of_nat (List.length items) = total_questions ->
  (exists a, In a items /\ outside_valid_answers a) ->
  exists k a,
    first_item_outside items k a /\
    (scalar a ->
     validate_student_dict str_of_other d total_questions
     = Ok (false, "Invalid answer '" ++ py_format str_of_other a ++ "' at question "
                  ++ str_of_nat (k + 1))) /\
    (~ scalar a ->
     validate_student_dict str_of_other d total_questions
     = Raise (TypeError ("unhashable type: '" ++ type_name a ++ "'"))) /\
    (forall s, a = JStr s -> py_format str_of_other a = s).
Proof.
  intros Hid Hname Hv Hitems Hlen (a0 & Hin0 & Hout0).
  destruct (validate_student_dict_cases d total_questions)
    as [(field & Hin & Hnone & _)
       |(_ & v' & Hv' &
         [(Hitems' & _)
         |(items' & Hitems' &
           [(Hlen' & _)
           |[(_ & Hinside & _)
            |(_ & k & a & Hfirst & Hc)]])])].
  - exfalso. cbn in Hin. destruct Hin as [<-|[<-|[<-|[]]]]; congruence.
  - congruence.
  - rewrite Hv in Hv'. injection Hv' as <-. rewrite Hitems in Hitems'.
    injection Hitems' as <-. contradiction.
  - rewrite Hv in Hv'. injection Hv' as <-. rewrite Hitems in Hitems'.
    injection Hitems' as <-. rewrite Forall_forall in Hinside.
    exfalso. now apply (Hinside a0 Hin0).
  - rewrite Hv in Hv'. injection Hv' as <-. rewrite Hitems in Hitems'.
    injection Hitems' as <-. exists k, a. split; [exact Hfirst|].
    split; [|split].
    + intros Hs. destruct Hc as [[_ Hc]|[Hn _]]; [exact Hc | contradiction].
    + intros Hn. destruct Hc as [[Hs _]|[_ Hc]]; [contradiction | exact Hc].
    + intros s ->. reflexivity.
Qed.

End AnyRecordProperties.

(** Sample records. *)

Lemma validate_student_dict_spec_witness :
  validate_student_dict (fun _ => "")
    [("student_id", JStr "S1"); ("student_name", JStr "Ann");
     ("answers", JList [JStr "A"; JStr "B"])] 2
  = Ok (true, "").
Proof.
  refine (proj2 (proj2 (proj2 (@validate_student_dict_spec (fun _ => "")
                   [("student_id", JStr "S1"); ("student_name", JStr "Ann");
                    ("answers", JList [JStr "A"; JStr "B"])] 2)) _) _).
  - intros [_ [(v & [= <-] & [=])|(v & items & k & a & [= <-] & [= <-] & _ & Hfirst & Hs)]].
    destruct Hfirst as (Hk & _ & _).
    destruct k as [|[|[|k]]]; cbn in Hk; try discriminate Hk;
      injection Hk as <-; apply Hs; exact I.
  - intros [(field & Hin & Hnone)|(v & items & [= <-] & [= <-] & [H|(a & Hin & Hout)])].
    + repeat destruct Hin as [<-|Hin]; try discriminate Hnone. exact Hin.
    + apply H. reflexivity.
    + repeat destruct Hin as [<-|Hin]; try exact Hin.
      * apply (Hout "A" eq_refl). cbn. tauto.
      * apply (Hout "B" eq_refl). cbn. tauto.
Defined.

(** C3 as stated fails on records the file can hold: with an answer that is
    itself a list, or with answers that are [null], the function raises
    instead of answering. *)
Lemma validation_raises_on_other_shapes :
  let nested := [("student_id", JStr "S1"); ("student_name", JStr "Ann");
                 ("answers", JList [JList [JStr "A"]])] in
  let absent := [("student_id", JStr "S1"); ("student_name", JStr "Ann");
                 ("answers", JNull)] in
  has_required_fields nested /\
  rejected_dict nested 1 /\
  (forall str_of_other,
     validate_student_dict str_of_other nested 1
     = Raise (TypeError "unhashable type: 'list'")) /\
  has_required_fields absent /\
  (forall str_of_other,
     validate_student_dict str_of_other absent 1
     = Raise (TypeError "object of type 'NoneType' has no len()")) /\
  (forall str_of_other answer,
     validate_student_dict str_of_other nested 1 <> Ok answer /\
     validate_student_dict str_of_other absent 1 <> Ok answer).
Proof.
  cbn zeta. unfold has_required_fields. repeat split; try discriminate.
  - intros field H. repeat destruct H as [<-|H]; try discriminate; contradiction.
  - right. eexists. eexists. split; [reflexivity|]. split; [reflexivity|].
    right. eexists. split; [now left|]. intros s [=].
  - intros field H. repeat destruct H as [<-|H]; try discriminate; contradiction.
Qed.

Lemma validate_names_first_invalid_answer_witness :
  exists k a,
    first_item_outside [JStr "A"; JStr "B"; JStr "a"; JInt 5] k a /\
    (scalar a ->
     validate_student_dict (fun _ => "")
       [("student_id", JStr "S1"); ("student_name", JStr "Ann");
        ("answers", JList [JStr "A"; JStr "B"; JStr "a"; JInt 5])] 4
     = Ok (false, "Invalid answer '" ++ py_format (fun _ => "") a ++ "' at question "
                  ++ str_of_nat (k + 1))) /\
    (~ scalar a ->
     validate_student_dict (fun _ => "")
       [("student_id", JStr "S1"); ("student_name", JStr "Ann");
        ("answers", JList [JStr "A"; JStr "B"; JStr "a"; JInt 5])] 4
     = Raise (TypeError ("unhashable type: '" ++ type_name a ++ "'"))) /\
    (forall s, a = JStr s -> py_format (fun _ => "") a = s).
Proof.
  refine (@validate_names_first_invalid_answer (fun _ => "") _ 4%Z _ _ _ _ _ _ _ _).
  - discriminate.
  - discriminate.
  - reflexivity.
  - reflexivity.
  - reflexivity.
  - exists (JStr "a"). split; [cbn; tauto|].
    intros s [= <-] H. repeat destruct H as [H|H]; try discriminate H. exact H.
Defined.

(** The reasons for a lowercase letter and for a letter past D. *)
Example reasons_for_a_and_E :
  validate_student_dict (fun _ => "")
    [("student_id", JStr "S1"); ("student_name", JStr "Ann");
     ("answers", JList [JStr "A"; JStr "B"; JStr "a"; JInt 5])] 4
  = Ok (false, "Invalid answer 'a' at question 3") /\
  validate_student_dict (fun _ => "")
    [("student_id", JStr "S1"); ("student_name", JStr "Ann");
     ("answers", JList [JStr "E"; JStr "B"])] 2
  = Ok (false, "Invalid answer 'E' at question 1") /\
  validate_student_dict (fun _ => "")
    [("student_id", JStr "S1"); ("student_name", JStr "Ann");
     ("answers", JList [JStr "A"; JInt 5])] 2
  = Ok (false, "Invalid answer '5' at question 2").
Proof. repeat split. Qed.

(** C8 as stated fails in two ways: a record without [student_id] is told
    of the missing field whatever its answers hold, and an answer that is
    itself a list makes the function raise. *)
Lemma reason_is_not_always_the_invalid_answer :
  let no_id := [("student_name", JStr "Ann"); ("answers", JList [JStr "A"; JStr "E"])] in
  let nested := [("student_id", JStr "S1"); ("student_name", JStr "Ann");
                 ("answers", JList [JList [JStr "A"]])] in
  (dict_get "answers" no_id = Some (JList [JStr "A"; JStr "E"]) /\
   outside_valid_answers (JStr "E") /\
   forall str_of_other,
     validate_student_dict str_of_other no_id 2
     = Ok (false, "Missing required field: student_id") /\
     forall k a,
       validate_student_dict str_of_other no_id 2
       <> Ok (false, "Invalid answer '" ++ py_format str_of_other a ++ "' at question "
                     ++ str_of_nat (k + 1))) /\
  (dict_get "answers" nested = Some (JList [JList [JStr "A"]]) /\
   outside_valid_answers (JList [JStr "A"]) /\
   forall str_of_other reason,
     validate_student_dict str_of_other nested 1 <> Ok (false, reason)).
Proof.
  cbn zeta. repeat split; try discriminate.
  - intros s [= <-] H. repeat destruct H as [H|H]; try discriminate H. exact H.
Qed.

(** ** The driver and the first three records *)

Lemma process_student_lines (tq : Z) (key : list string) (st st' : loop_state)
  (s : student) :
  process_student tq key st s = Ok st' ->
  output_lines st' = List.app (output_lines st) (student_lines tq key s) /\
  grades_data st' = List.app (grades_data st) (graded_record tq key s) /\
  processed_count st' = processed_count st + List.length (graded_record tq key s).
Proof.
  destruct (is_valid tq s) eqn:Hv.
  - destruct (@valid_record_fields s tq Hv) as (id & name & ans & Hid & Hn & Ha & _).
    assert (Hscore : score_of tq key s
                     = match calculate_grade ans key with
                       | Ok score => Some score
                       | Raise _ => None
                       end).
    { unfold score_of. now rewrite Hv, Ha. }
    unfold student_lines, graded_record, graded_name, graded_id.
    rewrite Hv, Hscore, Hn, Hid.
    unfold process_student. unfold is_valid in Hv.
    destruct (validate_student_data s tq) as [b msg]. cbn in Hv. subst b. cbn [negb].
    rewrite Ha, Hn, Hid. cbn [getitem bind].
    destruct (calculate_grade ans key) as [[[c p] g]|e]; cbn [bind]; [|discriminate].
    intros [= <-]. cbn. repeat split.
  - rewrite (@process_student_invalid tq key st s Hv). intros [= <-].
    unfold student_lines, graded_record, score_of. rewrite Hv. cbn.
    now rewrite app_nil_r, Nat.add_0_r.
Qed.

Lemma process_students_lines (tq : Z) (key : list string) (l : list student) :
  forall st st',
    process_students tq key st l = Ok st' ->
    output_lines st' = List.app (output_lines st) (flat_map (student_lines tq key) l) /\
    grades_data st' = List.app (grades_data st) (flat_map (graded_record tq key) l) /\
    processed_count st'
    = processed_count st + List.length (flat_map (graded_record tq key) l).
Proof.
  induction l as [|s l IH]; intros st st'; cbn [process_students flat_map].
  - intros [= <-]. cbn. now rewrite !app_nil_r, Nat.add_0_r.
  - destruct (process_student tq key st s) as [st1|e] eqn:Hs; cbn [bind]; [|discriminate].
    intros Hl. destruct (@process_student_lines tq key st st1 s Hs) as (Ho & Hg & Hc).
    destruct (IH st1 st' Hl) as (Ho' & Hg' & Hc').
    rewrite Ho', Hg', Hc', Ho, Hg, Hc, length_app, <- !app_assoc.
    repeat split. lia.
Qed.

Section Driver.

Variable py_sum : list float -> float.

(** A report that is returned is the header, the lines of each record
    processed, in order, and the summary of the records that were scored. *)
Lemma report_text (data : exam_data) (limit_students : option Z) (text : string) :
  report py_sum data limit_students = Ok text ->
  exists tail,
    summary_lines py_sum
      (state_after (info data) (answer_key data) (limited (students data) limit_students))
    = Ok tail /\
    text = String.concat newline
             (List.app
                (output_lines
                   (state_after (info data) (answer_key data)
                                (limited (students data) limit_students)))
                tail).
Proof.
  unfold report, report_lines.
  destruct (process_students _ _ _ _) as [st|e] eqn:Hst; cbn [bind]; [|discriminate].
  apply process_students_lines in Hst. cbn in Hst. destruct Hst as (Ho & Hg & Hc).
  assert (E : st = state_after (info data) (answer_key data)
                     (limited (students data) limit_students)).
  { destruct st as [o g c]. cbn in Ho, Hg, Hc. subst o g c. reflexivity. }
  rewrite E. destruct (summary_lines py_sum _) as [tail|e] eqn:Ht; cbn [bind]; [|discriminate].
  intros [= <-]. exists tail. split; reflexivity.
Qed.

(** C5: [main] passes the limit 3 to [process_grades], which cuts the roster
    down to its first three records before it validates or scores any.  For
    data of the input format: the result of [process_grades] with the limit 3
    is that of a run without limit on those three records; when it is a
    report, [main] writes and prints that very report and ends with status 0,
    and the report is the header, then for each of the three records, in
    roster order, its warning if it fails validation and its four result
    lines if it is scored, then the summary of the records scored among the
    three; when it is an error, [main] prints it and ends with status 1. *)
Theorem main_grades_first_three (w : world) (data : exam_data) :
  readable w "exam_data.json" = Json data ->
  let first3 := firstn 3 (students data) in
  let done := state_after (info data) (answer_key data) first3 in
  let w3 := with_exam_file w (with_roster data first3) in
  limited (students data) (Some 3%Z) = first3 /\
  process_grades py_sum (Some 3%Z) w
  = (report py_sum (with_roster data first3) None, w) /\
  (forall text,
     fst (process_grades py_sum (Some 3%Z) w) = Ok text ->
     main py_sum w = (0%Z, world_after_success w text) /\
     exists tail,
       summary_lines py_sum done = Ok tail /\
       text = String.concat newline (List.app (output_lines done) tail)) /\
  (forall e,
     fst (process_grades py_sum (Some 3%Z) w) = Raise e ->
     main py_sum w = (1%Z, world_after_failure w (unexpected_error_line e))) /\
  fst (process_grades py_sum (Some 3%Z) w) = fst (process_grades py_sum None w3) /\
  observable (main py_sum w) = observable (main py_sum w3).
Proof.
  intros Hf first3 done w3.
  assert (Hf3 : readable w3 "exam_data.json" = Json (with_roster data first3)) by reflexivity.
  pose proof (@process_grades_loaded py_sum w data (Some 3%Z) Hf) as Hp.
  split; [reflexivity|]. split; [exact Hp|]. rewrite Hp. cbn [fst].
  split; [|split; [|split]].
  - intros text Hr. split.
    + exact (@main_loaded_ok py_sum w data text Hf Hr).
    + apply report_text in Hr. exact Hr.
  - intros e Hr.
    destruct (report_outcome py_sum data (Some 3%Z)) as [[text Ht]|(Hz & _)].
    + rewrite Ht in Hr. discriminate Hr.
    + rewrite Hz in Hr. injection Hr as <-.
      exact (@main_raised py_sum w data Hf Hz).
  - rewrite (@process_grades_loaded py_sum w3 (with_roster data first3) None Hf3).
    reflexivity.
  - rewrite (@main_observable py_sum w data Hf).
    rewrite (@main_observable py_sum w3 (with_roster data first3) Hf3).
    unfold first3. rewrite report_of_first_three. reflexivity.
Qed.

End Driver.

Lemma main_grades_first_three_witness :
  let w := world_with sample_data in
  let first3 := firstn 3 (students sample_data) in
  let done := state_after (info sample_data) (answer_key sample_data) first3 in
  let w3 := with_exam_file w (with_roster sample_data first3) in
  limited (students sample_data) (Some 3%Z) = first3 /\
  process_grades sum_left_to_right (Some 3%Z) w
  = (report sum_left_to_right (with_roster sample_data first3) None, w) /\
  (forall text,
     fst (process_grades sum_left_to_right (Some 3%Z) w) = Ok text ->
     main sum_left_to_right w = (0%Z, world_after_success w text) /\
     exists tail,
       summary_lines sum_left_to_right done = Ok tail /\
       text = String.concat newline (List.app (output_lines done) tail)) /\
  (forall e,
     fst (process_grades sum_left_to_right (Some 3%Z) w) = Raise e ->
     main sum_left_to_right w = (1%Z, world_after_failure w (unexpected_error_line e))) /\
  fst (process_grades sum_left_to_right (Some 3%Z) w)
  = fst (process_grades sum_left_to_right None w3) /\
  observable (main sum_left_to_right w) = observable (main sum_left_to_right w3).
Proof.
  apply (@main_grades_first_three sum_left_to_right (world_with sample_data) sample_data).
  reflexivity.
Defined.

(** The lines the three records of the sample owe to the report, and the run
    of [main] on it: the fourth record, which is valid, is not in it. *)
Example sample_first_three_lines :
  flat_map (student_lines 4 ["A"; "B"; "C"; "D"]) (firstn 3 (students sample_data))
  = [ "Student: Ann (ID: S1)";
      "Score: 4/4 (100.0%)";
      "Grade: A";
      "----------------------------------------";
      warning_sign ++ "  ERROR processing Bob: Expected 4 answers, got 3";
      warning_sign ++ "  ERROR processing Unknown: Missing required field: student_name" ]
  /\ fst (main sum_left_to_right (world_with sample_data)) = 0%Z
  /\ written (snd (main sum_left_to_right (world_with sample_data)))
     = [("output.txt",
         String.concat newline
           (List.app
              (output_lines (state_after sample_exam ["A"; "B"; "C"; "D"]
                                         (firstn 3 (students sample_data))))
              [ newline ++ "CLASS SUMMARY STATISTICS";
                "==============================";
                "Students Processed: 1";
                "Class Average: 100.0%";
                "Highest Score: 100.0%";
                "Lowest Score: 100.0%";
                "";
                "Grade Distribution:";
                "  A: 1 student(s)" ]))].
Proof. vm_compute. repeat split. Qed.
